(** * SleepIQ component: throttled polling cache and sensor facade

    Shallow embedding of [homeassistant/components/sleepiq/__init__.py].

    The Python code mutates three kinds of things: the [SleepIQData] cache
    object, the [SleepIQSensor] objects, and the outside world (the vendor
    client that is called, the logger, the platform loader).  Each method is
    embedded as a function that takes the objects it touches and the trace
    of outside events, and returns a [Result] together with the new objects
    and the extended trace.  Exceptions are values of [Exn]. *)

From stdpp Require Import gmap strings list fin_maps.
From Stdlib Require Import ZArith Lia Ascii.

Local Open Scope Z_scope.

(** ** Exceptions and results *)

(** The exception classes the module names.  [OtherError] stands for any
    class that no [except] clause of the module matches. *)
Inductive Exn : Type :=
| ConnectionError (msg : string)
| AttributeError (msg : string)
| ValueError (msg : string)
| KeyError (key : string)
| UnknownUser (msg : string)
| PlatformNotReady (cause : Exn)
| OtherError (cls msg : string).

Inductive ExnKind : Type :=
| KConnectionError | KAttributeError | KValueError | KKeyError
| KUnknownUser | KPlatformNotReady | KOther.

Definition kind_of (e : Exn) : ExnKind :=
  match e with
  | ConnectionError _ => KConnectionError
  | AttributeError _ => KAttributeError
  | ValueError _ => KValueError
  | KeyError _ => KKeyError
  | UnknownUser _ => KUnknownUser
  | PlatformNotReady _ => KPlatformNotReady
  | OtherError _ _ => KOther
  end.

Inductive Result (A : Type) : Type :=
| Return (a : A)
| Raise (e : Exn).
Arguments Return {A} a.
Arguments Raise {A} e.

(** ** Module constants *)

Definition DOMAIN : string := "sleepiq".

(** Clock readings ([utcnow()]) and durations are counted in microseconds,
    the resolution of [datetime] and [timedelta]. *)
Definition timedelta_seconds (s : Z) : Z := s * 1000000.

Definition MIN_TIME_BETWEEN_UPDATES : Z := timedelta_seconds 30.

Definition IS_IN_BED : string := "is_in_bed".
Definition SLEEP_NUMBER : string := "sleep_number".

Definition SENSOR_TYPES : gmap string string :=
  <[IS_IN_BED := "Is In Bed"]> (<[SLEEP_NUMBER := "SleepNumber"]> ∅).

Definition LEFT : string := "left".
Definition RIGHT : string := "right".

(** The platforms build one facade per element of [SIDES = [LEFT, RIGHT]];
    a facade's [_side] is one of these two attribute names. *)
Inductive Side : Type := SideLeft | SideRight.

Definition side_str (s : Side) : string :=
  match s with SideLeft => LEFT | SideRight => RIGHT end.

Definition SIDES : list string := [LEFT; RIGHT].

(** ** Vendor data: what [beds_with_sleeper_status()] returns *)

(** The objects come from the vendor client.  The attributes that hold
    another object ([left] and [right] of a bed, [sleeper] of a side) may
    hold [None]; the module reads them without a test, except for the test
    of [self.side] in [name]. *)

Module Sleeper.
Record t : Type := mk { first_name : string }.
End Sleeper.

Module SideStatus.
Record t : Type := mk {
  is_in_bed : bool;
  sleep_number : Z;
  alert_id : Z;
  alert_detailed_message : string;
  sleeper : option Sleeper.t
}.
End SideStatus.

Module Bed.
Record t : Type := mk {
  bed_id : string;
  name : string;
  mac_address : string;
  model : string;
  sku : string;
  generation : string;
  purchase_date : string;
  registration_date : string;
  size : string;
  left : option SideStatus.t;
  right : option SideStatus.t
}.

(** [getattr(bed, side)] for [side] in [SIDES]; the value may be [None]. *)
Definition getattr (b : t) (s : Side) : option SideStatus.t :=
  match s with SideLeft => left b | SideRight => right b end.
End Bed.

(** ** The outside world *)

Inductive Level : Type := DEBUG | WARNING.

(** Everything the module does to its collaborators, in the order in which
    it happens: calls on the [Sleepyq] client, records handed to [_LOGGER],
    and [discovery.load_platform] requests. *)
Inductive Event : Type :=
| ClientLogin
| ClientBedsWithSleeperStatus
| Log (level : Level) (msg : string)
| LoadPlatform (component domain : string).

Abbreviation World := (list Event).

Definition is_login (e : Event) : bool :=
  match e with ClientLogin => true | _ => false end.

Definition is_warning (e : Event) : bool :=
  match e with Log WARNING _ => true | _ => false end.

(** Number of [login()] calls made so far: one per fetch attempt. *)
Definition login_count (w : World) : nat := length (filter is_login w).

Definition warnings (w : World) : list Event := filter is_warning w.

(** The client is a black box.  For one attempt it is described by what it
    printed to standard output and by how far the attempt got. *)
Inductive VendorOutcome : Type :=
| LoginRaises (e : Exn)
| BedsRaises (e : Exn)
| BedsReturn (beds : list Bed.t).

Record VendorReply : Type := mkReply {
  printed : string;
  outcome : VendorOutcome
}.

(** The body of the [try]: [login()] and then [beds_with_sleeper_status()]. *)
Definition vendor_fetch (o : VendorOutcome) : Result (list Bed.t) * World :=
  match o with
  | LoginRaises e => (Raise e, [ClientLogin])
  | BedsRaises e => (Raise e, [ClientLogin; ClientBedsWithSleeperStatus])
  | BedsReturn beds => (Return beds, [ClientLogin; ClientBedsWithSleeperStatus])
  end.

Record Sleepyq : Type := mkSleepyq {
  client_username : string;
  client_password : string
}.

(** ** Throttle *)

Module Throttle.
(** Modelled from the spec: the [Throttle] decorator of
    [homeassistant.util] is not among the sources.  The spec describes
    it as a gate on the time since the last successful call: the wrapped
    method runs unless fewer than the minimum interval have elapsed since
    the last successful invocation, and a call inside the window returns
    at once without error.  [last] is the stored timestamp of the last
    successful call, [None] when there has been none. *)
Definition suppressed (min_time : Z) (last : option Z) (now : Z) : bool :=
  match last with
  | None => false
  | Some t => now - t <? min_time
  end.
End Throttle.

(** ** SleepIQData: the shared cache *)

Definition login_failed_message : string :=
  "
                SleepIQ login failed. Double-check your username and password.
            ".

(** [{bed.bed_id: bed for bed in beds}]: a later bed with the same
    identifier replaces an earlier one. *)
Definition beds_by_id (l : list Bed.t) : gmap string Bed.t :=
  foldl (fun m b => <[Bed.bed_id b := b]> m) ∅ l.

Module SleepIQData.
Record t : Type := mk {
  _client : Sleepyq;
  beds : gmap string Bed.t;
  _throttle : option Z
}.

Definition set_beds (m : gmap string Bed.t) (self : t) : t :=
  mk (_client self) m (_throttle self).

Definition set_throttle (now : Z) (self : t) : t :=
  mk (_client self) (beds self) (Some now).

(** The [except] clauses of [update]. *)
Definition handle (r : Result (list Bed.t)) (self : t)
  : Result (list Bed.t) * t :=
  match r with
  | Raise (ConnectionError m) =>
      (Raise (ConnectionError m), set_beds ∅ self)
  | Raise (AttributeError _) =>
      (Raise (ConnectionError "SleepIQ API unavailable"), set_beds ∅ self)
  | Raise (ValueError _) =>
      (Raise (UnknownUser login_failed_message), set_beds ∅ self)
  | _ => (r, self)
  end.

(** The [finally] clause of [update]. *)
Definition forward_output (client_output : string) : World :=
  let warning_output := client_output in
  if (0 <? String.length warning_output)%nat
  then [Log WARNING client_output] else [].

(** The undecorated method [update]. *)
Definition update_body (reply : VendorReply) (self : t) (w : World)
  : Result unit * t * World :=
  let client_output := printed reply in
  let '(r, calls) := vendor_fetch (outcome reply) in
  let '(r, self1) := handle r self in
  let w1 := w ++ calls ++ forward_output client_output in
  match r with
  | Raise e => (Raise e, self1, w1)
  | Return fetched =>
      let w2 :=
        if (size (beds self1) =? 0)%nat
        then w1 ++ [Log DEBUG "Connected to SleepIQ."] else w1 in
      (Return tt, set_beds (beds_by_id fetched) self1, w2)
  end.

(** Modelled from the spec: [update] as callers see it, behind
    [@Throttle(MIN_TIME_BETWEEN_UPDATES)]; the decorator is not among the
    sources.  A suppressed call returns at once and touches nothing; a call
    that is let through runs the method above, and when the method returns
    (and only then) its clock reading [now] is stored as the time of the
    last successful call.  An exception of the method passes through. *)
Definition update (now : Z) (reply : VendorReply) (self : t) (w : World)
  : Result unit * t * World :=
  if Throttle.suppressed MIN_TIME_BETWEEN_UPDATES (_throttle self) now
  then (Return tt, self, w)
  else
    match update_body reply self w with
    | (Return v, self', w') => (Return v, set_throttle now self', w')
    | (Raise e, self', w') => (Raise e, self', w')
    end.

(** [__init__]: the object exists for the caller only if the first
    [update] returns. *)
Definition init (client : Sleepyq) (now : Z) (reply : VendorReply) (w : World)
  : Result t * World :=
  let self := mk client ∅ None in
  match update now reply self w with
  | (Return _, self', w') => (Return self', w')
  | (Raise e, _, w') => (Raise e, w')
  end.
End SleepIQData.

(** ** SleepIQSensor: the per-side facade *)

(** The dictionary returned by [device_info]; one field per key. *)
Module DeviceInfo.
Record t : Type := mk {
  identifiers : gset (string * string);
  name : string;
  bed_id : string;
  mac_address : string;
  model : string;
  sku : string;
  generation : string;
  purchase_date : string;
  registration_date : string;
  size : string;
  side : string
}.
End DeviceInfo.

(** The values stored under the keys of [_attributes]. *)
Inductive AttrValue : Type :=
| BedInfo (info : DeviceInfo.t)
| Alerts (alert_id : Z) (message : string)
| Text (s : string).

(** How an f-string renders a field that may still be [None]. *)
Definition format_opt (o : option string) : string :=
  match o with Some s => s | None => "None" end.

Module SleepIQSensor.
(** The field [sleepiq_data] is a reference to the one shared cache; the
    cache object itself is passed to (and returned by) [update], so every
    facade polled with it sees and mutates the same instance. *)
Record t : Type := mk {
  _bed_id : string;
  _side : Side;
  side : option SideStatus.t;
  bed : option Bed.t;
  _available : bool;
  _attributes : gmap string AttrValue;
  _name : option string;
  type : option string
}.

Definition init (bed_id : string) (side : Side) : t :=
  mk bed_id side None None false ∅ None None.

Definition set_available (b : bool) (self : t) : t :=
  mk (_bed_id self) (_side self) (side self) (bed self) b
     (_attributes self) (_name self) (type self).

Definition set_bed (b : Bed.t) (self : t) : t :=
  mk (_bed_id self) (_side self) (side self) (Some b) (_available self)
     (_attributes self) (_name self) (type self).

Definition set_side (s : option SideStatus.t) (self : t) : t :=
  mk (_bed_id self) (_side self) s (bed self) (_available self)
     (_attributes self) (_name self) (type self).

(** [self._attributes[key] = v] *)
Definition set_attribute (key : string) (v : AttrValue) (self : t) : t :=
  mk (_bed_id self) (_side self) (side self) (bed self) (_available self)
     (<[key := v]> (_attributes self)) (_name self) (type self).

Definition unique_id (self : t) : string :=
  "Sleep Number " +:+ _bed_id self +:+ " " +:+ side_str (_side self)
    +:+ " " +:+ format_opt (_name self).

(** What reading an attribute of [None] raises. *)
Definition none_has_no (attr : string) : Exn :=
  AttributeError ("'NoneType' object has no attribute '" +:+ attr +:+ "'").

Definition name (self : t) : Result string :=
  match bed self, side self with
  | Some b, Some s =>
      match SideStatus.sleeper s with
      | None => Raise (none_has_no "first_name")
      | Some sleeper =>
          let sleeper_name := Sleeper.first_name sleeper in
          Return ("Sleep Number " +:+ Bed.name b +:+ " " +:+ sleeper_name
                    +:+ " " +:+ format_opt (_name self))
      end
  | _, _ =>
      (* Bed is unavailable -- use our known ID instead *)
      Return (unique_id self)
  end.

Definition device_info (self : t) : Result DeviceInfo.t :=
  match bed self with
  | None => Raise (none_has_no "name")
  | Some b =>
      Return (DeviceInfo.mk {[ (DOMAIN, unique_id self) ]}
                (Bed.name b) (_bed_id self) (Bed.mac_address b)
                (Bed.model b) (Bed.sku b) (Bed.generation b)
                (Bed.purchase_date b) (Bed.registration_date b)
                (Bed.size b) (side_str (_side self)))
  end.

Definition available (self : t) : bool := _available self.

Definition assumed_state (self : t) : bool := negb (_available self).

Definition device_state_attributes (self : t) : gmap string AttrValue :=
  _attributes self.

(** [update]: [data] is the shared cache the facade refers to. *)
Definition update (now : Z) (reply : VendorReply)
    (self : t) (data : SleepIQData.t) (w : World)
  : Result unit * t * SleepIQData.t * World :=
  match SleepIQData.update now reply data w with
  | (Raise (ConnectionError _), data, w) =>
      (* Wasn't able to update; mark as unavailable and use cached data *)
      (Return tt, set_available false self, data, w)
  | (Raise e, data, w) => (Raise e, self, data, w)
  | (Return _, data, w) =>
      let self := set_available true self in
      match SleepIQData.beds data !! _bed_id self with
      | None => (Raise (KeyError (_bed_id self)), self, data, w)
      | Some b =>
          let self := set_bed b self in
          let self := set_side (Bed.getattr b (_side self)) self in
          match device_info self with
          | Raise e => (Raise e, self, data, w)
          | Return info =>
              let self := set_attribute "bed_info" (BedInfo info) self in
              match side self with
              | None => (Raise (none_has_no "alert_id"), self, data, w)
              | Some s =>
                  let self :=
                    set_attribute "alerts"
                      (Alerts (SideStatus.alert_id s)
                              (SideStatus.alert_detailed_message s)) self in
                  match SideStatus.sleeper s with
                  | None => (Raise (none_has_no "first_name"), self, data, w)
                  | Some sleeper =>
                      let self :=
                        set_attribute "sleeper"
                          (Text (Sleeper.first_name sleeper)) self in
                      (Return tt, self, data, w)
                  end
              end
          end
      end
  end.

(** Modelled from the spec: the measurement-kind subclasses of the sensor
    and binary_sensor platforms, which fill in the two fields that
    [__init__] leaves "added by subclass", are not among the sources.
    The spec gives a facade the identity "bed identifier + side +
    measurement kind, combined into a unique, stable identifier string at
    construction", with the kind spelled as in [SLEEP_NUMBER]: the
    subclass constructor runs [__init__] and stores the kind. *)
Definition for_kind (bed_id : string) (side : Side) (kind : string) : t :=
  let self := init bed_id side in
  mk (_bed_id self) (_side self) (SleepIQSensor.side self) (bed self)
     (_available self) (_attributes self) (Some kind) (Some kind).
End SleepIQSensor.

(** ** Component setup *)

(** The [sleepiq] section of a configuration accepted by [CONFIG_SCHEMA]:
    both keys are required strings. *)
Record Config : Type := mkConfig {
  CONF_USERNAME : string;
  CONF_PASSWORD : string
}.

Definition load_platform (component domain : string) (w : World) : World :=
  w ++ [LoadPlatform component domain].

(** [except (ConnectionError, UnknownUser) as e: raise PlatformNotReady(e)] *)
Definition not_ready (e : Exn) : Exn :=
  match e with
  | ConnectionError _ | UnknownUser _ => PlatformNotReady e
  | _ => e
  end.

(** [setup]: [DATA] is the module-level global, [t_init] and [t_update] are
    the clock readings of the two [update] calls, [r_init] and [r_update]
    what the client answers when (and if) it is asked. *)
Definition setup (config : Config) (t_init t_update : Z)
    (r_init r_update : VendorReply)
    (DATA : option SleepIQData.t) (w : World)
  : Result bool * option SleepIQData.t * World :=
  let username := CONF_USERNAME config in
  let password := CONF_PASSWORD config in
  let client := mkSleepyq username password in
  match SleepIQData.init client t_init r_init w with
  | (Raise e, w) => (Raise (not_ready e), DATA, w)
  | (Return data, w) =>
      match SleepIQData.update t_update r_update data w with
      | (Raise e, data, w) => (Raise (not_ready e), Some data, w)
      | (Return _, data, w) =>
          let w := load_platform "sensor" DOMAIN w in
          let w := load_platform "binary_sensor" DOMAIN w in
          (Return true, Some data, w)
      end
  end.

(** ** Sequences of polls *)

(** What one call of [SleepIQData.update] did, as seen from outside. *)
Record Observation : Type := mkObs {
  obs_result : Result unit;
  obs_fetches : nat;
  obs_beds : gmap string Bed.t
}.

(** Calls made one after the other on the same cache; each call comes with
    its clock reading and with the reply the client has ready for it. *)
Fixpoint run_updates (calls : list (Z * VendorReply))
    (data : SleepIQData.t) (w : World)
  : list Observation * SleepIQData.t * World :=
  match calls with
  | [] => ([], data, w)
  | (now, reply) :: rest =>
      let '(r, data', w') := SleepIQData.update now reply data w in
      let o := mkObs r (login_count w' - login_count w)
                     (SleepIQData.beds data') in
      let '(os, data'', w'') := run_updates rest data' w' in
      (o :: os, data'', w'')
  end.

(** Consecutive calls are less than [d] apart. *)
Fixpoint spaced_lt (d : Z) (times : list Z) : Prop :=
  match times with
  | t1 :: ((t2 :: _) as rest) => 0 <= t2 - t1 < d /\ spaced_lt d rest
  | _ => True
  end.

(** Consecutive calls are at least [d] apart. *)
Fixpoint spaced_ge (d : Z) (times : list Z) : Prop :=
  match times with
  | t1 :: ((t2 :: _) as rest) => d <= t2 - t1 /\ spaced_ge d rest
  | _ => True
  end.

(** Substring test, for messages. *)
Fixpoint contains (needle hay : string) : bool :=
  if String.prefix needle hay then true
  else match hay with
       | EmptyString => false
       | String _ hay' => contains needle hay'
       end.

(** ** Ways of describing a call *)

(** The call is let through by the throttle. *)
Definition performed (now : Z) (data : SleepIQData.t) : Prop :=
  Throttle.suppressed MIN_TIME_BETWEEN_UPDATES
    (SleepIQData._throttle data) now = false.

(** The [try] body of the attempt ends by raising [e]. *)
Definition fetch_raises (reply : VendorReply) (e : Exn) : Prop :=
  (vendor_fetch (outcome reply)).1 = Raise e.

(** The same attempt, failing at the same point with [e] instead. *)
Definition with_exception (e : Exn) (reply : VendorReply) : VendorReply :=
  mkReply (printed reply)
    match outcome reply with
    | LoginRaises _ => LoginRaises e
    | BedsRaises _ => BedsRaises e
    | BedsReturn l => BedsReturn l
    end.

(** ** Example data *)

Definition sam_side : SideStatus.t :=
  SideStatus.mk true 45 0 "" (Some (Sleeper.mk "Sam")).

Definition alex_side : SideStatus.t :=
  SideStatus.mk false 60 0 "" (Some (Sleeper.mk "Alex")).

Definition bed_abc123 : Bed.t :=
  Bed.mk "abc123" "Master" "AA:BB:CC:00:11:22" "P5" "QP5" "360"
         "2019-01-01" "2019-01-02" "QUEEN" (Some sam_side) (Some alex_side).

Definition bed_other : Bed.t :=
  Bed.mk "zzz999" "Guest" "AA:BB:CC:00:11:33" "C2" "QC2" "360"
         "2018-05-01" "2018-05-02" "TWIN" (Some alex_side) (Some alex_side).

Definition example_client : Sleepyq := mkSleepyq "user@example.org" "secret".

Definition example_config : Config := mkConfig "user@example.org" "secret".

Definition fresh_cache : SleepIQData.t := SleepIQData.mk example_client ∅ None.

(** A cache that fetched [bed_abc123] at time 0. *)
Definition warm_cache : SleepIQData.t :=
  SleepIQData.mk example_client (beds_by_id [bed_abc123]) (Some 0).

Definition reply_ok : VendorReply := mkReply "" (BedsReturn [bed_abc123]).

Definition reply_bed_gone : VendorReply := mkReply "" (BedsReturn [bed_other]).

Definition reply_down : VendorReply :=
  mkReply "retrying" (LoginRaises (ConnectionError "connection refused")).

Definition reply_malformed : VendorReply :=
  mkReply "" (BedsRaises (AttributeError "'NoneType' object has no attribute 'json'")).

Definition reply_bad_login : VendorReply :=
  mkReply "" (LoginRaises (ValueError "Incorrect username or password")).

Definition reply_noisy : VendorReply :=
  mkReply "deprecated endpoint" (BedsReturn [bed_abc123]).

(** The facade of the left side of [bed_abc123], before and after one
    successful poll of a fresh cache at time 0. *)
Definition sam_facade : SleepIQSensor.t :=
  SleepIQSensor.for_kind "abc123" SideLeft SLEEP_NUMBER.

Definition first_poll
  : Result unit * SleepIQSensor.t * SleepIQData.t * World :=
  SleepIQSensor.update 0 reply_ok sam_facade fresh_cache [].

Definition polled_facade : SleepIQSensor.t := first_poll.1.1.2.
Definition polled_cache : SleepIQData.t := first_poll.1.2.
Definition polled_world : World := first_poll.2.

(** ** Ways of describing a sequence of calls *)

Definition times (calls : list (Z * VendorReply)) : list Z := calls.*1.

(** The first call of the sequence, if there is one, is let through. *)
Definition first_performed (calls : list (Z * VendorReply))
    (data : SleepIQData.t) : Prop :=
  match calls with
  | [] => True
  | (now, _) :: _ => performed now data
  end.

(** Three successful polls 20 seconds apart. *)
Definition calls_20s_apart : list (Z * VendorReply) :=
  [ (0, reply_ok);
    (timedelta_seconds 20, reply_ok);
    (timedelta_seconds 40, reply_ok) ].

(** A failed poll and a successful one a second later. *)
Definition calls_first_fails : list (Z * VendorReply) :=
  [ (0, reply_down); (timedelta_seconds 1, reply_ok) ].

(** Three polls inside the window opened by the first one. *)
Definition calls_in_window : list (Z * VendorReply) :=
  [ (timedelta_seconds 10, reply_down);
    (timedelta_seconds 29, reply_bed_gone) ].

(** Polls at least 30 seconds apart, with mixed outcomes. *)
Definition calls_30s_apart : list (Z * VendorReply) :=
  [ (0, reply_ok);
    (timedelta_seconds 30, reply_down);
    (timedelta_seconds 60, reply_bed_gone);
    (timedelta_seconds 95, reply_ok) ].

(** ** Ways of describing what polls leave behind *)

(** The last bed of [l] whose identifier is [k]. *)
Definition last_with_id (k : string) (l : list Bed.t) : option Bed.t :=
  last (filter (fun b => Bed.bed_id b = k) l).

(** Every entry of the mapping is stored under its own identifier. *)
Definition keyed (m : gmap string Bed.t) : Prop :=
  forall k b, m !! k = Some b -> Bed.bed_id b = k.

(** The exception kinds that the [except] clauses of
    [SleepIQData.update] name. *)
Definition clears_cache (e : Exn) : bool :=
  match e with
  | ConnectionError _ | AttributeError _ | ValueError _ => true
  | _ => false
  end.

(** Polls of one facade, one after the other, on the shared cache. *)
Fixpoint run_polls (calls : list (Z * VendorReply))
    (self : SleepIQSensor.t) (data : SleepIQData.t) (w : World)
  : list (Result unit) * SleepIQSensor.t * SleepIQData.t * World :=
  match calls with
  | [] => ([], self, data, w)
  | (now, reply) :: rest =>
      let '(r, self', data', w') :=
        SleepIQSensor.update now reply self data w in
      let '(rs, self'', data'', w'') := run_polls rest self' data' w' in
      (r :: rs, self'', data'', w'')
  end.

(** What a facade that holds bed [b] has: the side is whatever [b] has
    there (possibly [None]); "bed_info" is what [device_info] returns; if
    there is a side, "alerts" is taken from it; if that side has a
    sleeper, "sleeper" is their first name. *)
Definition resolved_from (self : SleepIQSensor.t) (b : Bed.t) : Prop :=
  SleepIQSensor.side self = Bed.getattr b (SleepIQSensor._side self)
  /\ (exists info,
        SleepIQSensor.device_info self = Return info
        /\ SleepIQSensor._attributes self !! "bed_info"
           = Some (BedInfo info))
  /\ (forall s,
        SleepIQSensor.side self = Some s ->
        SleepIQSensor._attributes self !! "alerts"
        = Some (Alerts (SideStatus.alert_id s)
                       (SideStatus.alert_detailed_message s))
        /\ (forall sleeper,
               SideStatus.sleeper s = Some sleeper ->
               SleepIQSensor._attributes self !! "sleeper"
               = Some (Text (Sleeper.first_name sleeper)))).

(** Bed, side and attributes of a facade agree with each other. *)
Definition consistent (self : SleepIQSensor.t) : Prop :=
  match SleepIQSensor.bed self with
  | None =>
      SleepIQSensor.side self = None /\ SleepIQSensor._attributes self = ∅
  | Some b => resolved_from self b
  end.

Fixpoint no_space (s : string) : bool :=
  match s with
  | EmptyString => true
  | String c s' => negb (Ascii.eqb c " "%char) && no_space s'
  end.

Definition is_load_platform (e : Event) : bool :=
  match e with LoadPlatform _ _ => true | _ => false end.

(** The [LoadPlatform] requests of a trace. *)
Definition loaded (w : World) : list Event := filter is_load_platform w.

Definition is_client_call (e : Event) : bool :=
  match e with
  | ClientLogin | ClientBedsWithSleeperStatus => true
  | _ => false
  end.

(** More example data. *)

Definition bed_abc123_replaced : Bed.t :=
  Bed.mk "abc123" "Loft" "AA:BB:CC:00:11:44" "I8" "QI8" "360"
         "2020-03-01" "2020-03-02" "KING" (Some alex_side) (Some sam_side).

Definition reply_two_beds : VendorReply :=
  mkReply "" (BedsReturn [bed_abc123; bed_other; bed_abc123_replaced]).

Definition reply_timeout : VendorReply :=
  mkReply "slow" (BedsRaises (OtherError "Timeout" "read timed out")).

Definition alex_facade : SleepIQSensor.t :=
  SleepIQSensor.for_kind "abc123" SideRight IS_IN_BED.

(** Bed "abc123" with nobody registered on its right side, and with a left
    side whose sleeper is unknown. *)
Definition bed_abc123_half : Bed.t :=
  Bed.mk "abc123" "Master" "AA:BB:CC:00:11:22" "P5" "QP5" "360"
         "2019-01-01" "2019-01-02" "QUEEN"
         (Some (SideStatus.mk true 45 0 "" None)) None.

Definition reply_half : VendorReply := mkReply "" (BedsReturn [bed_abc123_half]).

(** ** Basic facts about the cache *)

Lemma update_performed now reply data w :
  performed now data ->
  SleepIQData.update now reply data w =
    match SleepIQData.update_body reply data w with
    | (Return v, data', w') => (Return v, SleepIQData.set_throttle now data', w')
    | (Raise e, data', w') => (Raise e, data', w')
    end.
Proof. unfold performed, SleepIQData.update. intros ->. reflexivity. Qed.

Lemma update_suppressed now reply data w :
  ~ performed now data ->
  SleepIQData.update now reply data w = (Return tt, data, w).
Proof.
  unfold performed, SleepIQData.update. intros H.
  destruct (Throttle.suppressed _ _ _); [reflexivity | contradiction].
Qed.

Lemma performed_fresh client now m :
  performed now (SleepIQData.mk client m None).
Proof. reflexivity. Qed.

Lemma fetch_raises_cases reply e :
  fetch_raises reply e ->
  outcome reply = LoginRaises e \/ outcome reply = BedsRaises e.
Proof.
  unfold fetch_raises. destruct (outcome reply); simpl; intros H;
    inversion H; subst; auto.
Qed.

Lemma login_count_app w1 w2 :
  login_count (w1 ++ w2) = (login_count w1 + login_count w2)%nat.
Proof. unfold login_count. rewrite filter_app, length_app. reflexivity. Qed.

Lemma login_count_forward_output s :
  login_count (SleepIQData.forward_output s) = 0%nat.
Proof. unfold SleepIQData.forward_output. destruct (_ <? _)%nat; reflexivity. Qed.

Lemma login_count_log level msg : login_count [Log level msg] = 0%nat.
Proof. reflexivity. Qed.

Lemma login_count_vendor_fetch o :
  login_count (vendor_fetch o).2 = 1%nat.
Proof. destruct o; reflexivity. Qed.

(** ** C1 *)

(** C1: when the call is performed and the fetch raises a connection
    error, the bed mapping becomes empty and the very same connection error
    is raised to the caller. *)
Theorem C1_connection_failure_clears_and_reraises
    now reply data w msg :
  performed now data ->
  fetch_raises reply (ConnectionError msg) ->
  (SleepIQData.update now reply data w).1.1 = Raise (ConnectionError msg)
  /\ SleepIQData.beds (SleepIQData.update now reply data w).1.2 = ∅.
Proof.
  intros Hp Hf. rewrite (update_performed _ _ _ _ Hp).
  unfold SleepIQData.update_body.
  destruct (fetch_raises_cases _ _ Hf) as [-> | ->]; simpl; auto.
Qed.

Lemma C1_witness :
  (SleepIQData.update (timedelta_seconds 45) reply_down warm_cache []).1.1
    = Raise (ConnectionError "connection refused")
  /\ SleepIQData.beds
       (SleepIQData.update (timedelta_seconds 45) reply_down warm_cache []).1.2
     = ∅.
Proof.
  apply (C1_connection_failure_clears_and_reraises
           (timedelta_seconds 45) reply_down warm_cache [] "connection refused");
    reflexivity.
Defined.

(** ** C2 *)

Lemma sensor_update_connection_error now reply self data w msg :
  (SleepIQData.update now reply data w).1.1 = Raise (ConnectionError msg) ->
  SleepIQSensor.update now reply self data w =
    (Return tt, SleepIQSensor.set_available false self,
     (SleepIQData.update now reply data w).1.2,
     (SleepIQData.update now reply data w).2).
Proof.
  unfold SleepIQSensor.update.
  destruct (SleepIQData.update now reply data w) as [[r d'] w'].
  simpl. intros ->. reflexivity.
Qed.

(** C2: when the shared cache's [update] raises the connectivity error,
    the facade's [update] returns normally, the facade is unavailable
    afterwards, and its attribute mapping (hence every value in it) and its
    resolved bed and side are what they were before the call. *)
Theorem C2_connectivity_error_degrades_gracefully
    now reply self data w msg :
  (SleepIQData.update now reply data w).1.1 = Raise (ConnectionError msg) ->
  let '(r, self', _, _) := SleepIQSensor.update now reply self data w in
  r = Return tt
  /\ SleepIQSensor.available self' = false
  /\ SleepIQSensor.device_state_attributes self'
     = SleepIQSensor.device_state_attributes self
  /\ (forall key, SleepIQSensor.device_state_attributes self' !! key
                  = SleepIQSensor.device_state_attributes self !! key)
  /\ SleepIQSensor.bed self' = SleepIQSensor.bed self
  /\ SleepIQSensor.side self' = SleepIQSensor.side self.
Proof.
  intros H. rewrite (sensor_update_connection_error _ _ _ _ _ _ H).
  repeat split; reflexivity.
Qed.

Lemma C2_witness :
  let '(r, self', _, _) :=
    SleepIQSensor.update (timedelta_seconds 45) reply_down
      polled_facade polled_cache polled_world in
  r = Return tt
  /\ SleepIQSensor.available self' = false
  /\ SleepIQSensor.device_state_attributes self'
     = SleepIQSensor.device_state_attributes polled_facade
  /\ (forall key, SleepIQSensor.device_state_attributes self' !! key
                  = SleepIQSensor.device_state_attributes polled_facade !! key)
  /\ SleepIQSensor.bed self' = SleepIQSensor.bed polled_facade
  /\ SleepIQSensor.side self' = SleepIQSensor.side polled_facade.
Proof.
  apply (C2_connectivity_error_degrades_gracefully
           (timedelta_seconds 45) reply_down polled_facade polled_cache
           polled_world "connection refused").
  reflexivity.
Defined.

Example polled_facade_sleeper :
  SleepIQSensor.device_state_attributes polled_facade !! "sleeper"
    = Some (Text "Sam")
  /\ SleepIQSensor.available polled_facade = true.
Proof. split; reflexivity. Qed.

(** ** C6 *)

Lemma update_body_attribute_error reply data w m m' :
  fetch_raises reply (AttributeError m) ->
  SleepIQData.update_body reply data w
  = (Raise (ConnectionError "SleepIQ API unavailable"),
     SleepIQData.set_beds ∅ data,
     (SleepIQData.update_body
        (with_exception (ConnectionError m') reply) data w).2)
  /\ SleepIQData.update_body (with_exception (ConnectionError m') reply) data w
     = (Raise (ConnectionError m'),
        SleepIQData.set_beds ∅ data,
        (SleepIQData.update_body
           (with_exception (ConnectionError m') reply) data w).2).
Proof.
  intros Hf. unfold SleepIQData.update_body, with_exception.
  destruct (fetch_raises_cases _ _ Hf) as [-> | ->]; simpl; auto.
Qed.

(** C6: when the call is performed and the fetch raises an attribute
    error, [update] raises a connectivity error, of the same kind as the
    one a connection failure at the same point of the attempt raises, and
    leaves the same cache (emptied) and the same trace of outside events
    as that connection failure does; a facade polled with either attempt
    ends in the same state. *)
Theorem C6_attribute_error_is_connectivity_error
    now reply data w m m' self :
  performed now data ->
  fetch_raises reply (AttributeError m) ->
  let plain := with_exception (ConnectionError m') reply in
  let '(r1, d1, w1) := SleepIQData.update now reply data w in
  let '(r2, d2, w2) := SleepIQData.update now plain data w in
  r1 = Raise (ConnectionError "SleepIQ API unavailable")
  /\ r2 = Raise (ConnectionError m')
  /\ (forall e1 e2, r1 = Raise e1 -> r2 = Raise e2 -> kind_of e1 = kind_of e2)
  /\ SleepIQData.beds d1 = ∅
  /\ d1 = d2
  /\ w1 = w2
  /\ SleepIQSensor.update now reply self data w
     = SleepIQSensor.update now plain self data w.
Proof.
  intros Hp Hf plain.
  unfold SleepIQSensor.update.
  rewrite !(update_performed _ _ _ _ Hp).
  destruct (update_body_attribute_error reply data w m m' Hf) as [-> E2].
  fold plain in E2 |- *. rewrite E2.
  repeat split; try reflexivity.
  intros e1 e2 [= <-] [= <-]. reflexivity.
Qed.

Lemma C6_witness :
  let plain := with_exception (ConnectionError "reset by peer") reply_malformed in
  let '(r1, d1, w1) :=
    SleepIQData.update (timedelta_seconds 45) reply_malformed polled_cache [] in
  let '(r2, d2, w2) :=
    SleepIQData.update (timedelta_seconds 45) plain polled_cache [] in
  r1 = Raise (ConnectionError "SleepIQ API unavailable")
  /\ r2 = Raise (ConnectionError "reset by peer")
  /\ (forall e1 e2, r1 = Raise e1 -> r2 = Raise e2 -> kind_of e1 = kind_of e2)
  /\ SleepIQData.beds d1 = ∅
  /\ d1 = d2
  /\ w1 = w2
  /\ SleepIQSensor.update (timedelta_seconds 45) reply_malformed
       polled_facade polled_cache []
     = SleepIQSensor.update (timedelta_seconds 45) plain
         polled_facade polled_cache [].
Proof.
  apply (C6_attribute_error_is_connectivity_error
           (timedelta_seconds 45) reply_malformed polled_cache []
           "'NoneType' object has no attribute 'json'" "reset by peer"
           polled_facade);
    reflexivity.
Defined.

(** ** C8 *)

Lemma forward_output_cases s :
  SleepIQData.forward_output s
  = match s with EmptyString => [] | _ => [Log WARNING s] end.
Proof. destruct s; reflexivity. Qed.

Lemma warnings_app w1 w2 : warnings (w1 ++ w2) = warnings w1 ++ warnings w2.
Proof. apply filter_app. Qed.

Lemma warnings_vendor_fetch o : warnings (vendor_fetch o).2 = [].
Proof. destruct o; reflexivity. Qed.

Lemma warnings_forward_output s :
  warnings (SleepIQData.forward_output s) = SleepIQData.forward_output s.
Proof. rewrite forward_output_cases. destruct s; reflexivity. Qed.

(** C8: whenever the call is performed, whatever the attempt's outcome,
    the trace grows by the client calls of the attempt, then by one
    warning record carrying the captured text if that text is not empty
    (and by no warning record if it is), and after that by at most a debug
    record: exactly one warning per attempt with output, none otherwise. *)
Theorem C8_captured_output_forwarded_once now reply data w :
  performed now data ->
  let w' := (SleepIQData.update now reply data w).2 in
  let forwarded :=
    match printed reply with
    | EmptyString => []
    | _ => [Log WARNING (printed reply)]
    end in
  (exists tail,
     w' = w ++ (vendor_fetch (outcome reply)).2 ++ forwarded ++ tail
     /\ (tail = [] \/ tail = [Log DEBUG "Connected to SleepIQ."]))
  /\ warnings w' = warnings w ++ forwarded.
Proof.
  intros Hp w' forwarded.
  assert (exists tail,
     w' = w ++ (vendor_fetch (outcome reply)).2 ++ forwarded ++ tail
     /\ (tail = [] \/ tail = [Log DEBUG "Connected to SleepIQ."])) as HT.
  { subst w' forwarded. rewrite (update_performed _ _ _ _ Hp).
    unfold SleepIQData.update_body. rewrite forward_output_cases.
    destruct (vendor_fetch (outcome reply)) as [r calls]. simpl.
    destruct (SleepIQData.handle r data) as [r' d1]. 
    destruct r' as [fetched | e]; simpl.
    - destruct (size (SleepIQData.beds d1) =? 0)%nat.
      + exists [Log DEBUG "Connected to SleepIQ."].
        rewrite <- !app_assoc. auto.
      + exists []. rewrite app_nil_r. auto.
    - exists []. rewrite app_nil_r. auto. }
  split; [exact HT |].
  destruct HT as (tail & -> & Ht).
  rewrite !warnings_app, warnings_vendor_fetch. simpl.
  assert (warnings tail = []) as -> by (destruct Ht as [-> | ->]; reflexivity).
  rewrite app_nil_r. f_equal.
  subst forwarded. destruct (printed reply); reflexivity.
Qed.

Lemma C8_witness :
  let w' :=
    (SleepIQData.update (timedelta_seconds 45) reply_noisy polled_cache
       polled_world).2 in
  let forwarded :=
    match printed reply_noisy with
    | EmptyString => []
    | _ => [Log WARNING (printed reply_noisy)]
    end in
  (exists tail,
     w' = polled_world ++ (vendor_fetch (outcome reply_noisy)).2
            ++ forwarded ++ tail
     /\ (tail = [] \/ tail = [Log DEBUG "Connected to SleepIQ."]))
  /\ warnings w' = warnings polled_world ++ forwarded.
Proof.
  apply (C8_captured_output_forwarded_once
           (timedelta_seconds 45) reply_noisy polled_cache polled_world).
  reflexivity.
Defined.

Example noisy_failure_logs_once :
  warnings (SleepIQData.update 0 reply_down fresh_cache []).2
  = [Log WARNING "retrying"].
Proof. reflexivity. Qed.

(** ** The facade: resolved and unresolved polls *)

Lemma name_unresolved self :
  SleepIQSensor.bed self = None \/ SleepIQSensor.side self = None ->
  SleepIQSensor.name self = Return (SleepIQSensor.unique_id self).
Proof.
  unfold SleepIQSensor.name.
  intros [-> | ->]; [reflexivity |].
  destruct (SleepIQSensor.bed self); reflexivity.
Qed.

Lemma name_resolved self b s sleeper :
  SleepIQSensor.bed self = Some b ->
  SleepIQSensor.side self = Some s ->
  SideStatus.sleeper s = Some sleeper ->
  SleepIQSensor.name self
  = Return ("Sleep Number " +:+ Bed.name b +:+ " "
              +:+ Sleeper.first_name sleeper
              +:+ " " +:+ format_opt (SleepIQSensor._name self)).
Proof. unfold SleepIQSensor.name. intros -> -> ->. reflexivity. Qed.

(** A poll whose refreshed mapping has no entry for the facade's bed
    stops at the subscript with [KeyError], after the availability flag was
    set; bed, side and attributes keep their earlier values. *)
Lemma sensor_update_bed_missing now reply self data w :
  (SleepIQData.update now reply data w).1.1 = Return tt ->
  SleepIQData.beds (SleepIQData.update now reply data w).1.2
    !! SleepIQSensor._bed_id self = None ->
  SleepIQSensor.update now reply self data w
  = (Raise (KeyError (SleepIQSensor._bed_id self)),
     SleepIQSensor.set_available true self,
     (SleepIQData.update now reply data w).1.2,
     (SleepIQData.update now reply data w).2).
Proof.
  unfold SleepIQSensor.update.
  destruct (SleepIQData.update now reply data w) as [[r d'] w'].
  simpl. intros -> ->. reflexivity.
Qed.

(** A poll whose refreshed mapping has the facade's bed, with a side and
    a sleeper where the facade looks. *)
Lemma sensor_update_resolved now reply self data w b s sleeper :
  (SleepIQData.update now reply data w).1.1 = Return tt ->
  SleepIQData.beds (SleepIQData.update now reply data w).1.2
    !! SleepIQSensor._bed_id self = Some b ->
  Bed.getattr b (SleepIQSensor._side self) = Some s ->
  SideStatus.sleeper s = Some sleeper ->
  exists self',
    SleepIQSensor.update now reply self data w
    = (Return tt, self',
       (SleepIQData.update now reply data w).1.2,
       (SleepIQData.update now reply data w).2)
    /\ SleepIQSensor._available self' = true
    /\ SleepIQSensor.bed self' = Some b
    /\ SleepIQSensor.side self' = Some s
    /\ SleepIQSensor._bed_id self' = SleepIQSensor._bed_id self
    /\ SleepIQSensor._side self' = SleepIQSensor._side self
    /\ SleepIQSensor._name self' = SleepIQSensor._name self
    /\ SleepIQSensor._attributes self' !! "sleeper"
       = Some (Text (Sleeper.first_name sleeper))
    /\ SleepIQSensor._attributes self' !! "alerts"
       = Some (Alerts (SideStatus.alert_id s)
                      (SideStatus.alert_detailed_message s)).
Proof.
  unfold SleepIQSensor.update.
  destruct (SleepIQData.update now reply data w) as [[r d'] w'].
  simpl. intros -> -> Hs Hsl. simpl. rewrite Hs. simpl. rewrite Hsl.
  eexists. split; [reflexivity |]. simpl.
  repeat split; try reflexivity.
  - apply lookup_insert_eq.
  - rewrite lookup_insert_ne by discriminate. apply lookup_insert_eq.
Qed.

(** ** C4 *)

(** C4, evaluated on the code: the facade of bed "abc123" was resolved by
    an earlier poll; 45 seconds later the account lists only another bed.
    The poll raises [KeyError] for "abc123", and the displayed name is
    still the one built from the removed bed, not the unique identifier. *)
Theorem C4_removed_bed_poll_raises :
  let '(r, self', data', _) :=
    SleepIQSensor.update (timedelta_seconds 45) reply_bed_gone
      polled_facade polled_cache polled_world in
  SleepIQData.beds data' !! "abc123" = None
  /\ r = Raise (KeyError "abc123")
  /\ SleepIQSensor.name self' = Return "Sleep Number Master Sam sleep_number"
  /\ SleepIQSensor.unique_id self' = "Sleep Number abc123 left sleep_number"
  /\ SleepIQSensor.name self' <> Return (SleepIQSensor.unique_id self')
  /\ SleepIQSensor.available self' = true.
Proof. vm_compute. repeat split; try reflexivity. discriminate. Qed.

(** ** C5 *)

(** C5: a facade built for ("abc123", left, sleep_number) is polled; the
    cache's [update] returns and its mapping has bed "abc123" whose left
    side has sleeper "Sam", sleep number 45 and alert 0.  Then the poll
    returns, the facade is available, its unique identifier is
    "Sleep Number abc123 left sleep_number" and its attribute "sleeper" is
    "Sam". *)
Theorem C5_scenario_after_successful_update now reply data w b s sleeper :
  let self := SleepIQSensor.for_kind "abc123" SideLeft SLEEP_NUMBER in
  (SleepIQData.update now reply data w).1.1 = Return tt ->
  SleepIQData.beds (SleepIQData.update now reply data w).1.2 !! "abc123"
    = Some b ->
  Bed.left b = Some s ->
  SideStatus.sleeper s = Some sleeper ->
  Sleeper.first_name sleeper = "Sam" ->
  SideStatus.sleep_number s = 45 ->
  SideStatus.alert_id s = 0 ->
  let '(r, self', _, _) := SleepIQSensor.update now reply self data w in
  r = Return tt
  /\ SleepIQSensor.available self' = true
  /\ SleepIQSensor.unique_id self' = "Sleep Number abc123 left sleep_number"
  /\ SleepIQSensor.device_state_attributes self' !! "sleeper"
     = Some (Text "Sam").
Proof.
  intros self Hr Hb Hleft Hsleeper Hsam _ _.
  destruct (sensor_update_resolved now reply self data w b s sleeper
              Hr Hb Hleft Hsleeper)
    as (self' & -> & Ha & _ & _ & Hid & Hside & Hname & Hsl & _).
  repeat split.
  - exact Ha.
  - unfold SleepIQSensor.unique_id. rewrite Hid, Hside, Hname. reflexivity.
  - unfold SleepIQSensor.device_state_attributes. rewrite Hsl, Hsam.
    reflexivity.
Qed.

Lemma C5_witness :
  let '(r, self', _, _) :=
    SleepIQSensor.update 0 reply_ok
      (SleepIQSensor.for_kind "abc123" SideLeft SLEEP_NUMBER)
      fresh_cache [] in
  r = Return tt
  /\ SleepIQSensor.available self' = true
  /\ SleepIQSensor.unique_id self' = "Sleep Number abc123 left sleep_number"
  /\ SleepIQSensor.device_state_attributes self' !! "sleeper"
     = Some (Text "Sam").
Proof.
  apply (C5_scenario_after_successful_update 0 reply_ok fresh_cache []
           bed_abc123 sam_side (Sleeper.mk "Sam"));
    reflexivity.
Defined.

(** ** C10 *)

(** The object built by [__init__] is unavailable, reports an assumed
    state, has no attributes, and displays its unique identifier as its
    name. *)
Lemma fresh_facade_as_constructed bed_id side :
  let self := SleepIQSensor.init bed_id side in
  SleepIQSensor.available self = false
  /\ SleepIQSensor.assumed_state self = true
  /\ SleepIQSensor.device_state_attributes self = ∅
  /\ SleepIQSensor.name self = Return (SleepIQSensor.unique_id self).
Proof. repeat split; reflexivity. Qed.

(** The first poll of a newly built facade, when the cache's [update]
    returns but the mapping has no entry for the facade's bed: the poll
    raises [KeyError], and the availability flag is set all the same. *)
Lemma first_poll_without_bed now reply data w bed_id side :
  (SleepIQData.update now reply data w).1.1 = Return tt ->
  SleepIQData.beds (SleepIQData.update now reply data w).1.2 !! bed_id
    = None ->
  let '(r, self', _, _) :=
    SleepIQSensor.update now reply (SleepIQSensor.init bed_id side) data w in
  r = Raise (KeyError bed_id)
  /\ SleepIQSensor.available self' = true
  /\ SleepIQSensor.assumed_state self' = false
  /\ SleepIQSensor.device_state_attributes self' = ∅
  /\ SleepIQSensor.bed self' = None
  /\ SleepIQSensor.name self' = Return (SleepIQSensor.unique_id self').
Proof.
  intros Hr Hb.
  rewrite (sensor_update_bed_missing now reply
             (SleepIQSensor.init bed_id side) data w Hr Hb).
  repeat split; reflexivity.
Qed.

(** C10, evaluated on the code: a facade for bed "abc123" is built and
    polled for the first time while the account lists only another bed.
    The poll fails with [KeyError], so the facade has had no successful
    update; it has no bed, no attributes and shows its unique identifier
    as its name, yet it reports itself available and its state as not
    assumed. *)
Theorem C10_failed_first_poll_marks_available :
  let '(r, self', _, _) :=
    SleepIQSensor.update 0 reply_bed_gone
      (SleepIQSensor.init "abc123" SideLeft) fresh_cache [] in
  r = Raise (KeyError "abc123")
  /\ SleepIQSensor.available self' = true
  /\ SleepIQSensor.assumed_state self' = false
  /\ SleepIQSensor.device_state_attributes self' = ∅
  /\ SleepIQSensor.bed self' = None
  /\ SleepIQSensor.name self' = Return (SleepIQSensor.unique_id self').
Proof.
  apply (first_poll_without_bed 0 reply_bed_gone fresh_cache []
           "abc123" SideLeft);
    reflexivity.
Qed.

Lemma fresh_facade_stays_unresolved now reply data w bed_id side msg :
  (SleepIQData.update now reply data w).1.1 = Raise (ConnectionError msg) ->
  (SleepIQSensor.update now reply (SleepIQSensor.init bed_id side) data w).1.1.2
  = SleepIQSensor.init bed_id side.
Proof.
  intros H. rewrite (sensor_update_connection_error _ _ _ _ _ _ H).
  reflexivity.
Qed.

(** ** The throttle and the number of fetches *)

Lemma performed_iff now data :
  performed now data <->
  forall s, SleepIQData._throttle data = Some s ->
            MIN_TIME_BETWEEN_UPDATES <= now - s.
Proof.
  unfold performed, Throttle.suppressed.
  destruct (SleepIQData._throttle data) as [s |].
  - rewrite Z.ltb_ge. split.
    + intros H s' [= <-]. exact H.
    + intros H. apply H. reflexivity.
  - split; [intros _ s' [=] | reflexivity].
Qed.

Lemma handle_throttle r data :
  SleepIQData._throttle (SleepIQData.handle r data).2
  = SleepIQData._throttle data.
Proof. destruct r as [l | []]; reflexivity. Qed.

Lemma update_body_throttle reply data w :
  SleepIQData._throttle (SleepIQData.update_body reply data w).1.2
  = SleepIQData._throttle data.
Proof.
  unfold SleepIQData.update_body.
  destruct (vendor_fetch (outcome reply)) as [r calls].
  pose proof (handle_throttle r data) as H.
  destruct (SleepIQData.handle r data) as [[l | e] d1]; simpl in *; exact H.
Qed.

(** After a call the stored timestamp is the one before it or the time of
    the call. *)
Lemma update_throttle now reply data w :
  SleepIQData._throttle (SleepIQData.update now reply data w).1.2
  = SleepIQData._throttle data
  \/ SleepIQData._throttle (SleepIQData.update now reply data w).1.2
     = Some now.
Proof.
  unfold SleepIQData.update.
  destruct (Throttle.suppressed _ _ _); [left; reflexivity |].
  pose proof (update_body_throttle reply data w) as H.
  destruct (SleepIQData.update_body reply data w) as [[[v | e] d1] w1];
    simpl in *; auto.
Qed.

Lemma login_count_update_body reply data w :
  login_count (SleepIQData.update_body reply data w).2
  = S (login_count w).
Proof.
  unfold SleepIQData.update_body.
  pose proof (login_count_vendor_fetch (outcome reply)) as Hc.
  destruct (vendor_fetch (outcome reply)) as [r calls]. simpl in Hc.
  destruct (SleepIQData.handle r data) as [[l | e] d1]; simpl;
    [destruct (size (SleepIQData.beds d1) =? 0)%nat |];
    rewrite !login_count_app, Hc, login_count_forward_output;
    rewrite ?login_count_log; lia.
Qed.

(** A call that is let through makes exactly one fetch attempt. *)
Lemma update_fetches_once now reply data w :
  performed now data ->
  login_count (SleepIQData.update now reply data w).2 = S (login_count w).
Proof.
  intros Hp. rewrite (update_performed _ _ _ _ Hp).
  pose proof (login_count_update_body reply data w) as H.
  destruct (SleepIQData.update_body reply data w) as [[[v | e] d1] w1];
    exact H.
Qed.

Lemma min_time_positive : 0 < MIN_TIME_BETWEEN_UPDATES.
Proof. reflexivity. Qed.

(** A call made at least the minimum interval after a call that was let
    through is let through as well, whatever the earlier call's outcome. *)
Lemma performed_next t0 t1 reply data w :
  performed t0 data ->
  MIN_TIME_BETWEEN_UPDATES <= t1 - t0 ->
  performed t1 (SleepIQData.update t0 reply data w).1.2.
Proof.
  intros Hp Hge. apply performed_iff. intros s Hs.
  destruct (update_throttle t0 reply data w) as [E | E]; rewrite E in Hs.
  - pose proof (proj1 (performed_iff t0 data) Hp s Hs).
    pose proof min_time_positive. lia.
  - injection Hs as <-. exact Hge.
Qed.

(** Calls that the throttle holds back change nothing and fetch nothing. *)
Lemma run_updates_suppressed rest data w :
  Forall (fun c => ~ performed c.1 data) rest ->
  run_updates rest data w
  = (map (fun _ => mkObs (Return tt) 0 (SleepIQData.beds data)) rest,
     data, w).
Proof.
  induction 1 as [| [now reply] rest Hc _ IH]; [reflexivity |].
  simpl in *. rewrite (update_suppressed _ _ _ _ Hc), IH.
  rewrite Nat.sub_diag. reflexivity.
Qed.

Lemma run_updates_all_fetch calls : forall data w,
  spaced_ge MIN_TIME_BETWEEN_UPDATES (times calls) ->
  first_performed calls data ->
  map obs_fetches (run_updates calls data w).1.1
  = repeat 1%nat (length calls).
Proof.
  induction calls as [| [t0 r0] rest IH]; intros data w Hs Hp;
    [reflexivity |].
  simpl in Hp. simpl.
  pose proof (update_fetches_once t0 r0 data w Hp) as Hn.
  pose proof (fun t1 => performed_next t0 t1 r0 data w Hp) as Hnext.
  destruct (SleepIQData.update t0 r0 data w) as [[r d1] w1].
  simpl in Hn, Hnext.
  specialize (IH d1 w1).
  destruct (run_updates rest d1 w1) as [[os d2] w2]. simpl in *.
  f_equal; [lia |].
  apply IH.
  - destruct rest as [| [t1 r1] rest']; [exact I |]. apply Hs.
  - destruct rest as [| [t1 r1] rest']; [exact I |].
    simpl. apply Hnext. apply Hs.
Qed.

Lemma update_success now out fetched data w :
  performed now data ->
  (SleepIQData.update now (mkReply out (BedsReturn fetched)) data w).1
  = (Return tt,
     SleepIQData.set_throttle now
       (SleepIQData.set_beds (beds_by_id fetched) data)).
Proof.
  intros Hp. rewrite (update_performed _ _ _ _ Hp). reflexivity.
Qed.

Lemma suppressed_after_success now t0 m client :
  now - t0 < MIN_TIME_BETWEEN_UPDATES ->
  ~ performed now (SleepIQData.mk client m (Some t0)).
Proof.
  unfold performed. simpl. intros H. apply Z.ltb_lt in H. rewrite H.
  discriminate.
Qed.

(** ** C3 *)

(** C3, as the code has it.  First part: the first call is let through
    and succeeds, and every later call is made less than 30 seconds after
    that first call; then the first call makes the only fetch, every later
    call returns without error and leaves the mapping built by the first
    call.  Second part: consecutive calls are at least 30 seconds apart and
    the first one is let through; then every call makes exactly one fetch
    attempt. *)
Theorem C3_throttle_window_and_spacing
    t0 out0 fetched rest data w calls data2 w2 :
  performed t0 data ->
  Forall (fun c => c.1 - t0 < MIN_TIME_BETWEEN_UPDATES) rest ->
  spaced_ge MIN_TIME_BETWEEN_UPDATES (times calls) ->
  first_performed calls data2 ->
  (let '(obs, data', w') :=
     run_updates ((t0, mkReply out0 (BedsReturn fetched)) :: rest) data w in
   map obs_fetches obs = 1%nat :: repeat 0%nat (length rest)
   /\ Forall (fun o => obs_result o = Return tt
                       /\ obs_beds o = beds_by_id fetched) obs
   /\ SleepIQData.beds data' = beds_by_id fetched
   /\ login_count w' = S (login_count w))
  /\ map obs_fetches (run_updates calls data2 w2).1.1
     = repeat 1%nat (length calls).
Proof.
  intros Hp Hwin Hs Hfirst.
  split; [| apply run_updates_all_fetch; assumption].
  simpl.
  pose proof (update_fetches_once t0 (mkReply out0 (BedsReturn fetched))
                data w Hp) as Hn.
  pose proof (update_success t0 out0 fetched data w Hp) as Hu.
  destruct (SleepIQData.update t0 (mkReply out0 (BedsReturn fetched)) data w)
    as [[r d1] w1].
  simpl in Hn, Hu. injection Hu as -> ->.
  rewrite run_updates_suppressed.
  2:{ eapply Forall_impl; [exact Hwin |].
      intros c Hc. apply suppressed_after_success. exact Hc. }
  simpl. repeat split.
  - f_equal; [lia |].
    clear. induction rest as [| c rest IH]; [reflexivity |].
    simpl. f_equal. exact IH.
  - constructor; [split; reflexivity |].
    clear. induction rest as [| c rest IH]; constructor; auto.
  - exact Hn.
Qed.

Lemma C3_witness :
  (let '(obs, data', w') :=
     run_updates ((0, mkReply "" (BedsReturn [bed_abc123])) :: calls_in_window)
       fresh_cache [] in
   map obs_fetches obs = 1%nat :: repeat 0%nat (length calls_in_window)
   /\ Forall (fun o => obs_result o = Return tt
                       /\ obs_beds o = beds_by_id [bed_abc123]) obs
   /\ SleepIQData.beds data' = beds_by_id [bed_abc123]
   /\ login_count w' = S (login_count []))
  /\ map obs_fetches (run_updates calls_30s_apart fresh_cache []).1.1
     = repeat 1%nat (length calls_30s_apart).
Proof.
  apply (C3_throttle_window_and_spacing
           0 "" [bed_abc123] calls_in_window fresh_cache []
           calls_30s_apart fresh_cache []).
  - reflexivity.
  - repeat constructor.
  - vm_compute. repeat split; discriminate.
  - reflexivity.
Defined.

(** C3 as stated fails on two sequences of polls of a fresh cache.  Three
    successful polls 20 seconds apart: the third one is 40 seconds after
    the only fetch so far and fetches again.  A failed poll followed one
    second later by another: no successful call has been recorded, so the
    second poll fetches too. *)
Lemma C3_counterexample :
  (spaced_lt MIN_TIME_BETWEEN_UPDATES (times calls_20s_apart)
   /\ map obs_fetches (run_updates calls_20s_apart fresh_cache []).1.1
      = [1; 0; 1]%nat)
  /\ (spaced_lt MIN_TIME_BETWEEN_UPDATES (times calls_first_fails)
      /\ map obs_fetches (run_updates calls_first_fails fresh_cache []).1.1
         = [1; 1]%nat).
Proof.
  repeat split; try reflexivity; vm_compute; discriminate.
Qed.

(** ** Construction of the cache and component setup *)

(** Constructing the cache always makes one fetch attempt. *)
Lemma init_fetches_once client now reply w :
  login_count (SleepIQData.init client now reply w).2 = S (login_count w).
Proof.
  unfold SleepIQData.init.
  pose proof (update_fetches_once now reply (SleepIQData.mk client ∅ None) w
                (performed_fresh client now ∅)) as H.
  destruct (SleepIQData.update now reply (SleepIQData.mk client ∅ None) w)
    as [[[v | e] d1] w1]; exact H.
Qed.

(** A failed first fetch makes the constructor raise what the [except]
    clauses of [update] raise, after the captured output was forwarded. *)
Lemma init_raises client now reply w e :
  fetch_raises reply e ->
  exists e',
    (SleepIQData.handle (Raise e) (SleepIQData.mk client ∅ None)).1 = Raise e'
    /\ SleepIQData.init client now reply w
       = (Raise e',
          w ++ (vendor_fetch (outcome reply)).2
            ++ SleepIQData.forward_output (printed reply)).
Proof.
  intros Hf. unfold SleepIQData.init, SleepIQData.update.
  simpl. unfold SleepIQData.update_body.
  destruct (fetch_raises_cases _ _ Hf) as [-> | ->]; simpl;
    destruct e; simpl; eexists; split; reflexivity.
Qed.

Lemma init_success client now out fetched w :
  SleepIQData.init client now (mkReply out (BedsReturn fetched)) w
  = (Return (SleepIQData.mk client (beds_by_id fetched) (Some now)),
     w ++ [ClientLogin; ClientBedsWithSleeperStatus]
       ++ SleepIQData.forward_output out
       ++ [Log DEBUG "Connected to SleepIQ."]).
Proof.
  unfold SleepIQData.init, SleepIQData.update. simpl.
  unfold SleepIQData.update_body. simpl.
  rewrite <- !app_assoc. reflexivity.
Qed.

(** ** C7 *)

(** C7, as the code has it: when the first fetch of a startup raises a
    value error, the cache turns it into [UnknownUser], whose message
    tells the operator to double-check username and password; [setup] does
    not swallow it but raises [PlatformNotReady] around it, leaves [DATA]
    as it was, and does nothing else: one fetch attempt, no platform
    loaded. *)
Theorem C7_bad_credentials_abort_setup
    config t_init t_update r_init r_update DATA w m :
  fetch_raises r_init (ValueError m) ->
  (SleepIQData.init (mkSleepyq (CONF_USERNAME config) (CONF_PASSWORD config))
     t_init r_init w).1
  = Raise (UnknownUser login_failed_message)
  /\ contains "Double-check your username and password" login_failed_message
     = true
  /\ setup config t_init t_update r_init r_update DATA w
     = (Raise (PlatformNotReady (UnknownUser login_failed_message)),
        DATA,
        w ++ (vendor_fetch (outcome r_init)).2
          ++ SleepIQData.forward_output (printed r_init))
  /\ login_count (setup config t_init t_update r_init r_update DATA w).2
     = S (login_count w).
Proof.
  intros Hf.
  set (client := mkSleepyq (CONF_USERNAME config) (CONF_PASSWORD config)).
  destruct (init_raises client t_init r_init w _ Hf) as (e' & He' & Hinit).
  simpl in He'. injection He' as <-.
  assert (setup config t_init t_update r_init r_update DATA w
          = (Raise (PlatformNotReady (UnknownUser login_failed_message)),
             DATA,
             w ++ (vendor_fetch (outcome r_init)).2
               ++ SleepIQData.forward_output (printed r_init))) as Hsetup.
  { unfold setup. fold client. rewrite Hinit. reflexivity. }
  repeat split.
  - rewrite Hinit. reflexivity.
  - exact Hsetup.
  - rewrite Hsetup. cbn [snd].
    rewrite !login_count_app, login_count_vendor_fetch,
      login_count_forward_output. lia.
Qed.

Lemma C7_witness :
  (SleepIQData.init
     (mkSleepyq (CONF_USERNAME example_config) (CONF_PASSWORD example_config))
     0 reply_bad_login []).1
  = Raise (UnknownUser login_failed_message)
  /\ contains "Double-check your username and password" login_failed_message
     = true
  /\ setup example_config 0 1 reply_bad_login reply_ok None []
     = (Raise (PlatformNotReady (UnknownUser login_failed_message)),
        None,
        [] ++ (vendor_fetch (outcome reply_bad_login)).2
          ++ SleepIQData.forward_output (printed reply_bad_login))
  /\ login_count (setup example_config 0 1 reply_bad_login reply_ok None []).2
     = S (login_count []).
Proof.
  apply (C7_bad_credentials_abort_setup example_config 0 1
           reply_bad_login reply_ok None []
           "Incorrect username or password").
  reflexivity.
Defined.

(** C7 as stated fails: what [setup] raises for rejected credentials is
    not an [UnknownUser] exception but a [PlatformNotReady] one, the same
    kind it raises when the connection fails. *)
Lemma C7_counterexample :
  fetch_raises reply_bad_login (ValueError "Incorrect username or password")
  /\ exists e_auth e_conn,
       (setup example_config 0 1 reply_bad_login reply_ok None []).1.1
         = Raise e_auth
       /\ (setup example_config 0 1 reply_down reply_ok None []).1.1
          = Raise e_conn
       /\ kind_of e_auth <> KUnknownUser
       /\ kind_of e_auth = kind_of e_conn.
Proof.
  split; [reflexivity |].
  eexists _, _. repeat split; try reflexivity. discriminate.
Qed.

(** ** C9 *)

(** C9: constructing the cache makes one fetch attempt, and raises if that
    attempt fails; so when the first fetch succeeds and the explicit
    [update] of [setup] comes less than 30 seconds after it, that call does
    nothing: [setup] returns [True] after exactly one login and one fetch,
    with [DATA] holding the fetched beds, and then loads the two
    platforms. *)
Theorem C9_setup_fetches_once
    config t_init t_update out fetched r_update DATA w :
  t_update - t_init < MIN_TIME_BETWEEN_UPDATES ->
  let client := mkSleepyq (CONF_USERNAME config) (CONF_PASSWORD config) in
  let r_init := mkReply out (BedsReturn fetched) in
  (forall now reply w0,
      login_count (SleepIQData.init client now reply w0).2
      = S (login_count w0))
  /\ (forall now reply w0 e,
         fetch_raises reply e ->
         exists e', (SleepIQData.init client now reply w0).1 = Raise e')
  /\ SleepIQData.update t_update r_update
       (SleepIQData.mk client (beds_by_id fetched) (Some t_init))
       (SleepIQData.init client t_init r_init w).2
     = (Return tt,
        SleepIQData.mk client (beds_by_id fetched) (Some t_init),
        (SleepIQData.init client t_init r_init w).2)
  /\ setup config t_init t_update r_init r_update DATA w
     = (Return true,
        Some (SleepIQData.mk client (beds_by_id fetched) (Some t_init)),
        w ++ [ClientLogin; ClientBedsWithSleeperStatus]
          ++ SleepIQData.forward_output out
          ++ [Log DEBUG "Connected to SleepIQ."]
          ++ [LoadPlatform "sensor" DOMAIN;
              LoadPlatform "binary_sensor" DOMAIN])
  /\ login_count (setup config t_init t_update r_init r_update DATA w).2
     = S (login_count w).
Proof.
  intros Ht client r_init.
  pose proof (suppressed_after_success t_update t_init
                (beds_by_id fetched) client Ht) as Hsup.
  assert (setup config t_init t_update r_init r_update DATA w
     = (Return true,
        Some (SleepIQData.mk client (beds_by_id fetched) (Some t_init)),
        w ++ [ClientLogin; ClientBedsWithSleeperStatus]
          ++ SleepIQData.forward_output out
          ++ [Log DEBUG "Connected to SleepIQ."]
          ++ [LoadPlatform "sensor" DOMAIN;
              LoadPlatform "binary_sensor" DOMAIN])) as Hsetup.
  { unfold setup. fold client. subst r_init. rewrite init_success.
    rewrite (update_suppressed _ _ _ _ Hsup).
    unfold load_platform. rewrite <- !app_assoc. reflexivity. }
  split; [intros; apply init_fetches_once |].
  split.
  { intros now reply w0 e Hf.
    destruct (init_raises client now reply w0 e Hf) as (e' & _ & ->).
    exists e'. reflexivity. }
  split; [apply update_suppressed; exact Hsup |].
  split; [exact Hsetup |].
  rewrite Hsetup. cbn [snd].
  rewrite !login_count_app, login_count_forward_output, login_count_log.
  change (login_count [ClientLogin; ClientBedsWithSleeperStatus]) with 1%nat.
  change (login_count [LoadPlatform "sensor" DOMAIN;
                       LoadPlatform "binary_sensor" DOMAIN]) with 0%nat.
  lia.
Qed.

Lemma C9_witness :
  let client :=
    mkSleepyq (CONF_USERNAME example_config) (CONF_PASSWORD example_config) in
  let r_init := mkReply "" (BedsReturn [bed_abc123]) in
  (forall now reply w0,
      login_count (SleepIQData.init client now reply w0).2
      = S (login_count w0))
  /\ (forall now reply w0 e,
         fetch_raises reply e ->
         exists e', (SleepIQData.init client now reply w0).1 = Raise e')
  /\ SleepIQData.update (timedelta_seconds 2) reply_bed_gone
       (SleepIQData.mk client (beds_by_id [bed_abc123]) (Some 0))
       (SleepIQData.init client 0 r_init []).2
     = (Return tt,
        SleepIQData.mk client (beds_by_id [bed_abc123]) (Some 0),
        (SleepIQData.init client 0 r_init []).2)
  /\ setup example_config 0 (timedelta_seconds 2) r_init reply_bed_gone None []
     = (Return true,
        Some (SleepIQData.mk client (beds_by_id [bed_abc123]) (Some 0)),
        [] ++ [ClientLogin; ClientBedsWithSleeperStatus]
          ++ SleepIQData.forward_output ""
          ++ [Log DEBUG "Connected to SleepIQ."]
          ++ [LoadPlatform "sensor" DOMAIN;
              LoadPlatform "binary_sensor" DOMAIN])
  /\ login_count
       (setup example_config 0 (timedelta_seconds 2) r_init reply_bed_gone
          None []).2
     = S (login_count []).
Proof.
  apply (C9_setup_fetches_once example_config 0 (timedelta_seconds 2) ""
           [bed_abc123] reply_bed_gone None []).
  reflexivity.
Defined.

Example setup_after_window_fetches_twice :
  login_count
    (setup example_config 0 (timedelta_seconds 30) reply_ok reply_ok None []).2
  = 2%nat.
Proof. reflexivity. Qed.

(** ** The mapping built from a fetch *)

Lemma beds_by_id_snoc l b :
  beds_by_id (l ++ [b]) = <[Bed.bed_id b := b]> (beds_by_id l).
Proof. unfold beds_by_id. rewrite foldl_app. reflexivity. Qed.

Lemma last_with_id_snoc k l b :
  last_with_id k (l ++ [b])
  = if decide (Bed.bed_id b = k) then Some b else last_with_id k l.
Proof.
  unfold last_with_id. rewrite filter_app, filter_cons, filter_nil.
  destruct (decide (Bed.bed_id b = k));
    [apply last_snoc | rewrite app_nil_r; reflexivity].
Qed.

Lemma beds_by_id_lookup l k : beds_by_id l !! k = last_with_id k l.
Proof.
  induction l as [| b l IH] using rev_ind; [reflexivity |].
  rewrite beds_by_id_snoc, last_with_id_snoc, lookup_insert.
  destruct (decide (Bed.bed_id b = k)); [reflexivity | exact IH].
Qed.

Lemma last_with_id_keyed k l b :
  last_with_id k l = Some b -> Bed.bed_id b = k /\ b ∈ l.
Proof.
  unfold last_with_id. intros H.
  apply last_Some in H as [l' H].
  assert (b ∈ filter (fun b => Bed.bed_id b = k) l) as Hin
    by (rewrite H; apply elem_of_app; right; apply list_elem_of_singleton;
        reflexivity).
  apply list_elem_of_filter in Hin. destruct Hin; auto.
Qed.

Lemma keyed_beds_by_id l : keyed (beds_by_id l).
Proof.
  intros k b. rewrite beds_by_id_lookup. intros H.
  apply last_with_id_keyed in H. tauto.
Qed.

Lemma keyed_empty : keyed ∅.
Proof. intros k b. rewrite lookup_empty. discriminate. Qed.

(** X1: A fetch that succeeds replaces the mapping: what is stored under an
    identifier afterwards is the last fetched bed with that identifier, a
    bed of the fetched list stored under its own identifier; an identifier
    that the fetched list does not have is no longer in the mapping,
    whatever the mapping held before. *)
Theorem successful_update_replaces_mapping now out fetched data w :
  performed now data ->
  let data' :=
    (SleepIQData.update now (mkReply out (BedsReturn fetched)) data w).1.2 in
  (forall k, SleepIQData.beds data' !! k = last_with_id k fetched)
  /\ (forall k b, SleepIQData.beds data' !! k = Some b ->
                  Bed.bed_id b = k /\ b ∈ fetched)
  /\ (forall k, k ∉ map Bed.bed_id fetched ->
                SleepIQData.beds data' !! k = None)
  /\ (forall b, b ∈ fetched ->
                is_Some (SleepIQData.beds data' !! Bed.bed_id b)).
Proof.
  intros Hp data'. subst data'. rewrite (update_success _ _ _ _ _ Hp). simpl.
  assert (forall k, beds_by_id fetched !! k = last_with_id k fetched) as HL
    by (intros; apply beds_by_id_lookup).
  split; [exact HL |]. split; [| split].
  - intros k b. rewrite HL. apply last_with_id_keyed.
  - intros k Hk. rewrite HL.
    destruct (last_with_id k fetched) as [b |] eqn:E; [| reflexivity].
    apply last_with_id_keyed in E as [<- Hin].
    exfalso. apply Hk. apply list_elem_of_fmap. exists b. auto.
  - intros b Hin. rewrite HL. unfold last_with_id.
    destruct (last (filter (fun b0 => Bed.bed_id b0 = Bed.bed_id b) fetched))
      as [b' |] eqn:E; [eexists; reflexivity |].
    apply last_None in E.
    assert (b ∈ filter (fun b0 => Bed.bed_id b0 = Bed.bed_id b) fetched) as H
      by (apply list_elem_of_filter; auto).
    rewrite E in H. inversion H.
Qed.

Lemma successful_update_replaces_mapping_witness :
  let data' :=
    (SleepIQData.update (timedelta_seconds 45) reply_two_beds
       warm_cache []).1.2 in
  (forall k, SleepIQData.beds data' !! k
             = last_with_id k [bed_abc123; bed_other; bed_abc123_replaced])
  /\ (forall k b, SleepIQData.beds data' !! k = Some b ->
                  Bed.bed_id b = k
                  /\ b ∈ [bed_abc123; bed_other; bed_abc123_replaced])
  /\ (forall k,
         k ∉ map Bed.bed_id [bed_abc123; bed_other; bed_abc123_replaced] ->
         SleepIQData.beds data' !! k = None)
  /\ (forall b, b ∈ [bed_abc123; bed_other; bed_abc123_replaced] ->
                is_Some (SleepIQData.beds data' !! Bed.bed_id b)).
Proof.
  apply (successful_update_replaces_mapping (timedelta_seconds 45) ""
           [bed_abc123; bed_other; bed_abc123_replaced] warm_cache []).
  reflexivity.
Defined.

Example duplicate_identifier_last_wins :
  SleepIQData.beds
    (SleepIQData.update (timedelta_seconds 45) reply_two_beds
       warm_cache []).1.2 !! "abc123"
  = Some bed_abc123_replaced.
Proof. reflexivity. Qed.

(** ** Failures of the fetch *)

(** X2: An exception that none of the three [except] clauses names leaves
    [update] as it was raised; the cache keeps its mapping and its
    throttle state, and the captured output is forwarded all the same. *)
Theorem unhandled_exception_passes_through now reply data w e :
  performed now data ->
  fetch_raises reply e ->
  clears_cache e = false ->
  SleepIQData.update now reply data w
  = (Raise e, data,
     w ++ (vendor_fetch (outcome reply)).2
       ++ SleepIQData.forward_output (printed reply)).
Proof.
  intros Hp Hf Hc. rewrite (update_performed _ _ _ _ Hp).
  unfold SleepIQData.update_body.
  destruct data as [c m th].
  destruct (fetch_raises_cases _ _ Hf) as [-> | ->]; simpl;
    destruct e; simpl in *; try discriminate; reflexivity.
Qed.

Lemma unhandled_exception_passes_through_witness :
  SleepIQData.update (timedelta_seconds 45) reply_timeout polled_cache []
  = (Raise (OtherError "Timeout" "read timed out"), polled_cache,
     [] ++ (vendor_fetch (outcome reply_timeout)).2
        ++ SleepIQData.forward_output (printed reply_timeout)).
Proof.
  apply (unhandled_exception_passes_through (timedelta_seconds 45)
           reply_timeout polled_cache []
           (OtherError "Timeout" "read timed out"));
    reflexivity.
Defined.

Lemma update_cases now reply data w :
  SleepIQData.update now reply data w = (Return tt, data, w)
  \/ SleepIQData.update now reply data w
     = match SleepIQData.update_body reply data w with
       | (Return v, data', w') =>
           (Return v, SleepIQData.set_throttle now data', w')
       | (Raise e, data', w') => (Raise e, data', w')
       end.
Proof.
  unfold SleepIQData.update.
  destruct (Throttle.suppressed _ _ _); [left | right]; reflexivity.
Qed.

(** X3: Whenever [update] raises a connection error, the mapping it leaves
    behind is empty: a caller that catches the error finds no beds in the
    cache. *)
Theorem connection_error_leaves_empty_mapping now reply data w msg :
  (SleepIQData.update now reply data w).1.1 = Raise (ConnectionError msg) ->
  SleepIQData.beds (SleepIQData.update now reply data w).1.2 = ∅.
Proof.
  destruct (update_cases now reply data w) as [-> | ->];
    [discriminate |].
  unfold SleepIQData.update_body.
  destruct (outcome reply) as [e | e | l]; simpl;
    try destruct e; simpl; intros H; try discriminate H; reflexivity.
Qed.

Lemma connection_error_leaves_empty_mapping_witness :
  SleepIQData.beds
    (SleepIQData.update (timedelta_seconds 45) reply_malformed
       polled_cache []).1.2 = ∅.
Proof.
  apply (connection_error_leaves_empty_mapping (timedelta_seconds 45)
           reply_malformed polled_cache [] "SleepIQ API unavailable").
  reflexivity.
Defined.

(** X4: [update] never lets an attribute error or a value error out: whatever
    the client does, an exception that leaves [update] is of another
    kind. *)
Theorem update_never_raises_attribute_or_value_error now reply data w e :
  (SleepIQData.update now reply data w).1.1 = Raise e ->
  kind_of e <> KAttributeError /\ kind_of e <> KValueError.
Proof.
  destruct (update_cases now reply data w) as [-> | ->];
    [discriminate |].
  unfold SleepIQData.update_body.
  destruct (outcome reply) as [e0 | e0 | l]; simpl;
    try destruct e0; simpl; intros [= <-]; split; discriminate.
Qed.

Lemma update_never_raises_attribute_or_value_error_witness :
  kind_of (UnknownUser login_failed_message) <> KAttributeError
  /\ kind_of (UnknownUser login_failed_message) <> KValueError.
Proof.
  apply (update_never_raises_attribute_or_value_error 0 reply_bad_login
           fresh_cache [] (UnknownUser login_failed_message)).
  reflexivity.
Defined.

(** ** The debug record *)

(** X5: A fetch that succeeds logs "Connected to SleepIQ." exactly when the
    mapping was empty before it, after the client calls and the forwarded
    output; with beds in the mapping it logs nothing of its own. *)
Theorem connected_logged_iff_mapping_was_empty now out fetched data w :
  performed now data ->
  let w' :=
    (SleepIQData.update now (mkReply out (BedsReturn fetched)) data w).2 in
  let w1 :=
    w ++ [ClientLogin; ClientBedsWithSleeperStatus]
      ++ SleepIQData.forward_output out in
  (SleepIQData.beds data = ∅ ->
   w' = w1 ++ [Log DEBUG "Connected to SleepIQ."])
  /\ (SleepIQData.beds data <> ∅ -> w' = w1).
Proof.
  intros Hp w' w1. subst w' w1. rewrite (update_performed _ _ _ _ Hp).
  unfold SleepIQData.update_body. simpl.
  destruct (size (SleepIQData.beds data) =? 0)%nat eqn:E; simpl.
  - apply Nat.eqb_eq, map_size_empty_iff in E.
    split; [intros _ | intros H; contradiction].
    rewrite <- !app_assoc. reflexivity.
  - apply Nat.eqb_neq in E.
    split; [intros H | reflexivity].
    rewrite H, map_size_empty in E. contradiction.
Qed.

Lemma connected_logged_iff_mapping_was_empty_witness :
  let w' :=
    (SleepIQData.update (timedelta_seconds 45) reply_noisy warm_cache []).2 in
  let w1 :=
    [] ++ [ClientLogin; ClientBedsWithSleeperStatus]
       ++ SleepIQData.forward_output "deprecated endpoint" in
  (SleepIQData.beds warm_cache = ∅ ->
   w' = w1 ++ [Log DEBUG "Connected to SleepIQ."])
  /\ (SleepIQData.beds warm_cache <> ∅ -> w' = w1).
Proof.
  apply (connected_logged_iff_mapping_was_empty (timedelta_seconds 45)
           "deprecated endpoint" [bed_abc123] warm_cache []).
  reflexivity.
Defined.

(** X6: After a fetch that failed with one of the three handled kinds, the
    next fetch that succeeds logs "Connected to SleepIQ." again, whatever
    the mapping held before the failure. *)
Theorem reconnect_is_logged t1 t2 r1 e out fetched data w :
  performed t1 data ->
  fetch_raises r1 e ->
  clears_cache e = true ->
  performed t2 (SleepIQData.update t1 r1 data w).1.2 ->
  (SleepIQData.update t2 (mkReply out (BedsReturn fetched))
     (SleepIQData.update t1 r1 data w).1.2
     (SleepIQData.update t1 r1 data w).2).2
  = (SleepIQData.update t1 r1 data w).2
      ++ [ClientLogin; ClientBedsWithSleeperStatus]
      ++ SleepIQData.forward_output out
      ++ [Log DEBUG "Connected to SleepIQ."].
Proof.
  intros Hp Hf Hc.
  assert (SleepIQData.beds (SleepIQData.update t1 r1 data w).1.2 = ∅) as HE.
  { rewrite (update_performed _ _ _ _ Hp). unfold SleepIQData.update_body.
    destruct (fetch_raises_cases _ _ Hf) as [-> | ->]; simpl;
      destruct e; simpl in *; try discriminate; reflexivity. }
  destruct (SleepIQData.update t1 r1 data w) as [[r d1] w1]. simpl in *.
  intros Hp2. rewrite (update_performed _ _ _ _ Hp2).
  unfold SleepIQData.update_body. simpl.
  rewrite HE, map_size_empty. simpl.
  rewrite <- !app_assoc. reflexivity.
Qed.

Lemma reconnect_is_logged_witness :
  (SleepIQData.update (timedelta_seconds 50) reply_ok
     (SleepIQData.update (timedelta_seconds 45) reply_down warm_cache []).1.2
     (SleepIQData.update (timedelta_seconds 45) reply_down warm_cache []).2).2
  = (SleepIQData.update (timedelta_seconds 45) reply_down warm_cache []).2
      ++ [ClientLogin; ClientBedsWithSleeperStatus]
      ++ SleepIQData.forward_output ""
      ++ [Log DEBUG "Connected to SleepIQ."].
Proof.
  apply (reconnect_is_logged (timedelta_seconds 45) (timedelta_seconds 50)
           reply_down (ConnectionError "connection refused") ""
           [bed_abc123] warm_cache []);
    reflexivity.
Defined.

(** ** What every call of the cache keeps *)

Lemma update_beds_cases now reply data w :
  SleepIQData.beds (SleepIQData.update now reply data w).1.2
    = SleepIQData.beds data
  \/ SleepIQData.beds (SleepIQData.update now reply data w).1.2 = ∅
  \/ exists l, outcome reply = BedsReturn l
               /\ SleepIQData.beds (SleepIQData.update now reply data w).1.2
                  = beds_by_id l.
Proof.
  destruct (update_cases now reply data w) as [-> | ->]; [left; reflexivity |].
  unfold SleepIQData.update_body.
  destruct (outcome reply) as [e | e | l]; simpl.
  - destruct e; simpl; auto.
  - destruct e; simpl; auto.
  - right. right. exists l. auto.
Qed.

Lemma update_client now reply data w :
  SleepIQData._client (SleepIQData.update now reply data w).1.2
  = SleepIQData._client data.
Proof.
  destruct (update_cases now reply data w) as [-> | ->]; [reflexivity |].
  unfold SleepIQData.update_body.
  destruct (outcome reply) as [e | e | l]; simpl;
    try destruct e; reflexivity.
Qed.

Lemma update_keyed now reply data w :
  keyed (SleepIQData.beds data) ->
  keyed (SleepIQData.beds (SleepIQData.update now reply data w).1.2).
Proof.
  intros Hk.
  destruct (update_beds_cases now reply data w) as [-> | [-> | (l & _ & ->)]];
    [exact Hk | apply keyed_empty | apply keyed_beds_by_id].
Qed.

Lemma update_login_count now reply data w :
  (login_count w <= login_count (SleepIQData.update now reply data w).2
   <= S (login_count w))%nat.
Proof.
  destruct (update_cases now reply data w) as [-> | ->]; [simpl; lia |].
  pose proof (login_count_update_body reply data w) as H.
  destruct (SleepIQData.update_body reply data w) as [[[v | e] d1] w1];
    simpl in *; lia.
Qed.

(** X7: Whatever the calls and the replies, a cache whose mapping stores each
    bed under its own identifier keeps such a mapping after every call,
    keeps the client it was built with, and has asked the client to log in
    at most once per call: a failed fetch is not tried again inside the
    call. *)
Theorem run_updates_keeps_cache_well_formed calls : forall data w,
  keyed (SleepIQData.beds data) ->
  let '(obs, data', w') := run_updates calls data w in
  keyed (SleepIQData.beds data')
  /\ SleepIQData._client data' = SleepIQData._client data
  /\ Forall (fun o => keyed (obs_beds o) /\ (obs_fetches o <= 1)%nat) obs
  /\ (login_count w <= login_count w' <= login_count w + length calls)%nat.
Proof.
  induction calls as [| [now reply] rest IH]; intros data w Hk; simpl.
  - repeat split; auto; lia.
  - pose proof (update_keyed now reply data w Hk) as Hk1.
    pose proof (update_client now reply data w) as Hc1.
    pose proof (update_login_count now reply data w) as Hn1.
    destruct (SleepIQData.update now reply data w) as [[r d1] w1].
    simpl in Hk1, Hc1, Hn1.
    specialize (IH d1 w1 Hk1).
    destruct (run_updates rest d1 w1) as [[os d2] w2].
    destruct IH as (Hk2 & Hc2 & Hobs & Hn2).
    split; [exact Hk2 |]. split; [congruence |]. split; [| lia].
    constructor; [| exact Hobs]. simpl. split; [exact Hk1 | lia].
Qed.

Lemma run_updates_keeps_cache_well_formed_witness :
  let '(obs, data', w') := run_updates calls_30s_apart fresh_cache [] in
  keyed (SleepIQData.beds data')
  /\ SleepIQData._client data' = SleepIQData._client fresh_cache
  /\ Forall (fun o => keyed (obs_beds o) /\ (obs_fetches o <= 1)%nat) obs
  /\ (login_count [] <= login_count w'
      <= login_count [] + length calls_30s_apart)%nat.
Proof.
  apply (run_updates_keeps_cache_well_formed calls_30s_apart fresh_cache []).
  intros k b H. vm_compute in H. discriminate H.
Defined.

(** ** What a poll does to the facade and to nothing else *)

(** Case split on what the facade finds on its side of the bed. *)
Ltac side_cases :=
  repeat match goal with
  | |- context [match Bed.getattr ?b ?s with _ => _ end] =>
      destruct (Bed.getattr b s) eqn:?; simpl
  | |- context [match SideStatus.sleeper ?s with _ => _ end] =>
      destruct (SideStatus.sleeper s) eqn:?; simpl
  end.

(** X8: An error of the cache's [update] that is not a connection error
    leaves the facade's [update] as it is, and the facade is exactly what
    it was before the poll: its availability flag is not touched. *)
Theorem facade_lets_other_errors_through now reply self data w e :
  (SleepIQData.update now reply data w).1.1 = Raise e ->
  kind_of e <> KConnectionError ->
  SleepIQSensor.update now reply self data w
  = (Raise e, self,
     (SleepIQData.update now reply data w).1.2,
     (SleepIQData.update now reply data w).2).
Proof.
  unfold SleepIQSensor.update.
  destruct (SleepIQData.update now reply data w) as [[r d'] w'].
  simpl. intros -> Hk. destruct e; simpl in *; congruence.
Qed.

Lemma facade_lets_other_errors_through_witness :
  SleepIQSensor.update (timedelta_seconds 45) reply_bad_login
    polled_facade polled_cache polled_world
  = (Raise (UnknownUser login_failed_message), polled_facade,
     (SleepIQData.update (timedelta_seconds 45) reply_bad_login
        polled_cache polled_world).1.2,
     (SleepIQData.update (timedelta_seconds 45) reply_bad_login
        polled_cache polled_world).2).
Proof.
  apply (facade_lets_other_errors_through (timedelta_seconds 45)
           reply_bad_login polled_facade polled_cache polled_world
           (UnknownUser login_failed_message)).
  - reflexivity.
  - discriminate.
Defined.

Lemma sensor_update_cache now reply self data w :
  (SleepIQSensor.update now reply self data w).1.2
  = (SleepIQData.update now reply data w).1.2.
Proof.
  unfold SleepIQSensor.update.
  destruct (SleepIQData.update now reply data w) as [[[[] | e] d'] w'].
  - simpl. destruct (SleepIQData.beds d' !! SleepIQSensor._bed_id self);
      simpl; side_cases; reflexivity.
  - destruct e; reflexivity.
Qed.

(** X9: A poll of a facade does to the shared cache and to the outside world
    exactly what the cache's own [update] does, whatever the outcome: the
    facade reads the cache and never writes it. *)
Theorem facade_only_delegates now reply self data w :
  (SleepIQSensor.update now reply self data w).1.2
    = (SleepIQData.update now reply data w).1.2
  /\ (SleepIQSensor.update now reply self data w).2
     = (SleepIQData.update now reply data w).2.
Proof.
  split; [apply sensor_update_cache |].
  unfold SleepIQSensor.update.
  destruct (SleepIQData.update now reply data w) as [[[[] | e] d'] w'].
  - simpl. destruct (SleepIQData.beds d' !! SleepIQSensor._bed_id self);
      simpl; side_cases; reflexivity.
  - destruct e; reflexivity.
Qed.

Lemma sensor_update_identity now reply self data w :
  let self' := (SleepIQSensor.update now reply self data w).1.1.2 in
  SleepIQSensor._bed_id self' = SleepIQSensor._bed_id self
  /\ SleepIQSensor._side self' = SleepIQSensor._side self
  /\ SleepIQSensor._name self' = SleepIQSensor._name self
  /\ SleepIQSensor.type self' = SleepIQSensor.type self.
Proof.
  unfold SleepIQSensor.update.
  destruct (SleepIQData.update now reply data w) as [[[[] | e] d'] w'].
  - simpl. destruct (SleepIQData.beds d' !! SleepIQSensor._bed_id self);
      simpl; side_cases; repeat split; reflexivity.
  - destruct e; repeat split; reflexivity.
Qed.

Lemma unique_id_fields self1 self2 :
  SleepIQSensor._bed_id self1 = SleepIQSensor._bed_id self2 ->
  SleepIQSensor._side self1 = SleepIQSensor._side self2 ->
  SleepIQSensor._name self1 = SleepIQSensor._name self2 ->
  SleepIQSensor.unique_id self1 = SleepIQSensor.unique_id self2.
Proof. unfold SleepIQSensor.unique_id. intros -> -> ->. reflexivity. Qed.

(** X10: The unique identifier of a facade is the same after any sequence of
    polls, whatever their outcomes, as it was before. *)
Theorem unique_id_is_stable calls : forall self data w,
  SleepIQSensor.unique_id (run_polls calls self data w).1.1.2
  = SleepIQSensor.unique_id self.
Proof.
  induction calls as [| [now reply] rest IH]; intros self data w;
    [reflexivity |].
  simpl.
  pose proof (sensor_update_identity now reply self data w) as (H1 & H2 & H3 & _).
  destruct (SleepIQSensor.update now reply self data w) as [[[r s1] d1] w1].
  simpl in H1, H2, H3.
  specialize (IH s1 d1 w1).
  destruct (run_polls rest s1 d1 w1) as [[[rs s2] d2] w2].
  simpl in *. rewrite IH. apply unique_id_fields; assumption.
Qed.

(** X11: A poll whose refreshed mapping has no entry for the facade's bed
    raises [KeyError] with the bed identifier; the availability flag has
    been set by then, and bed, side and attributes are those of before. *)
Theorem missing_bed_raises_key_error now reply self data w :
  (SleepIQData.update now reply data w).1.1 = Return tt ->
  SleepIQData.beds (SleepIQData.update now reply data w).1.2
    !! SleepIQSensor._bed_id self = None ->
  let '(r, self', _, _) := SleepIQSensor.update now reply self data w in
  r = Raise (KeyError (SleepIQSensor._bed_id self))
  /\ SleepIQSensor.available self' = true
  /\ SleepIQSensor.bed self' = SleepIQSensor.bed self
  /\ SleepIQSensor.side self' = SleepIQSensor.side self
  /\ SleepIQSensor.device_state_attributes self'
     = SleepIQSensor.device_state_attributes self
  /\ SleepIQSensor.name self' = SleepIQSensor.name self.
Proof.
  intros Hr Hb. rewrite (sensor_update_bed_missing _ _ _ _ _ Hr Hb).
  repeat split; reflexivity.
Qed.

Lemma missing_bed_raises_key_error_witness :
  let '(r, self', _, _) :=
    SleepIQSensor.update 0 reply_bed_gone sam_facade fresh_cache [] in
  r = Raise (KeyError (SleepIQSensor._bed_id sam_facade))
  /\ SleepIQSensor.available self' = true
  /\ SleepIQSensor.bed self' = SleepIQSensor.bed sam_facade
  /\ SleepIQSensor.side self' = SleepIQSensor.side sam_facade
  /\ SleepIQSensor.device_state_attributes self'
     = SleepIQSensor.device_state_attributes sam_facade
  /\ SleepIQSensor.name self' = SleepIQSensor.name sam_facade.
Proof.
  apply (missing_bed_raises_key_error 0 reply_bed_gone sam_facade
           fresh_cache []);
    reflexivity.
Defined.

(** ** Polls that resolve the bed *)

(** Lookups in an attribute mapping after the assignments of [update]. *)
Ltac attr_lookup :=
  try unfold SleepIQSensor.device_state_attributes; simpl;
  repeat first
    [ rewrite lookup_insert_eq
    | rewrite lookup_insert_ne by (discriminate || congruence) ];
  reflexivity.

(** X12: A poll whose refreshed mapping has the facade's bed leaves the
    facade available, holding that bed and whatever the bed has on the
    facade's side; the attribute "bed_info" is what [device_info] returns
    from then on, with the unique identifier as its only identifier, and
    the keys other than "bed_info", "alerts" and "sleeper" keep their
    values.  If the bed has nothing on that side, the poll raises an
    attribute error with "alerts" and "sleeper" left as they were, and the
    name is the unique identifier.  If the side has no sleeper, "alerts"
    is rebuilt, the poll raises an attribute error with "sleeper" left as
    it was, and reading the name raises too.  Otherwise the poll returns,
    "alerts" and "sleeper" come from the side, and the name is built from
    the bed's name and the sleeper's first name. *)
Theorem resolved_poll_rebuilds_attributes now reply self data w b :
  (SleepIQData.update now reply data w).1.1 = Return tt ->
  SleepIQData.beds (SleepIQData.update now reply data w).1.2
    !! SleepIQSensor._bed_id self = Some b ->
  let '(r, self', _, _) := SleepIQSensor.update now reply self data w in
  let attrs := SleepIQSensor.device_state_attributes self in
  let attrs' := SleepIQSensor.device_state_attributes self' in
  SleepIQSensor.available self' = true
  /\ SleepIQSensor.bed self' = Some b
  /\ SleepIQSensor.side self' = Bed.getattr b (SleepIQSensor._side self)
  /\ (exists info,
        SleepIQSensor.device_info self' = Return info
        /\ attrs' !! "bed_info" = Some (BedInfo info)
        /\ DeviceInfo.identifiers info
           = {[ (DOMAIN, SleepIQSensor.unique_id self) ]}
        /\ DeviceInfo.name info = Bed.name b
        /\ DeviceInfo.bed_id info = SleepIQSensor._bed_id self
        /\ DeviceInfo.side info = side_str (SleepIQSensor._side self))
  /\ (forall key,
         key <> "bed_info" -> key <> "alerts" -> key <> "sleeper" ->
         attrs' !! key = attrs !! key)
  /\ match Bed.getattr b (SleepIQSensor._side self) with
     | None =>
         r = Raise (SleepIQSensor.none_has_no "alert_id")
         /\ attrs' !! "alerts" = attrs !! "alerts"
         /\ attrs' !! "sleeper" = attrs !! "sleeper"
         /\ SleepIQSensor.name self'
            = Return (SleepIQSensor.unique_id self)
     | Some s =>
         attrs' !! "alerts"
         = Some (Alerts (SideStatus.alert_id s)
                        (SideStatus.alert_detailed_message s))
         /\ match SideStatus.sleeper s with
            | None =>
                r = Raise (SleepIQSensor.none_has_no "first_name")
                /\ attrs' !! "sleeper" = attrs !! "sleeper"
                /\ SleepIQSensor.name self'
                   = Raise (SleepIQSensor.none_has_no "first_name")
            | Some sleeper =>
                r = Return tt
                /\ attrs' !! "sleeper"
                   = Some (Text (Sleeper.first_name sleeper))
                /\ SleepIQSensor.name self'
                   = Return ("Sleep Number " +:+ Bed.name b +:+ " "
                               +:+ Sleeper.first_name sleeper +:+ " "
                               +:+ format_opt (SleepIQSensor._name self))
            end
     end.
Proof.
  unfold SleepIQSensor.update.
  destruct (SleepIQData.update now reply data w) as [[r d'] w'].
  simpl. intros -> ->. simpl.
  destruct (Bed.getattr b (SleepIQSensor._side self)) as [s |] eqn:Hs; simpl;
    [destruct (SideStatus.sleeper s) as [sleeper |] eqn:Hsl; simpl |].
  all: split; [reflexivity |]; split; [reflexivity |];
    split; [reflexivity |]; split;
    [eexists; split; [reflexivity |]; split; [attr_lookup |];
     repeat split; reflexivity |];
    split; [intros key H1 H2 H3; attr_lookup |].
  - split; [attr_lookup |]. split; [reflexivity |]. split; [attr_lookup |].
    unfold SleepIQSensor.name. simpl. rewrite Hsl. reflexivity.
  - split; [attr_lookup |]. split; [reflexivity |]. split; [attr_lookup |].
    unfold SleepIQSensor.name. simpl. rewrite Hsl. reflexivity.
  - split; [reflexivity |]. split; [attr_lookup |]. split; [attr_lookup |].
    reflexivity.
Qed.

Lemma resolved_poll_rebuilds_attributes_witness :
  let '(r, self', _, _) :=
    SleepIQSensor.update (timedelta_seconds 45) reply_half
      alex_facade polled_cache polled_world in
  let attrs := SleepIQSensor.device_state_attributes alex_facade in
  let attrs' := SleepIQSensor.device_state_attributes self' in
  SleepIQSensor.available self' = true
  /\ SleepIQSensor.bed self' = Some bed_abc123_half
  /\ SleepIQSensor.side self'
     = Bed.getattr bed_abc123_half (SleepIQSensor._side alex_facade)
  /\ (exists info,
        SleepIQSensor.device_info self' = Return info
        /\ attrs' !! "bed_info" = Some (BedInfo info)
        /\ DeviceInfo.identifiers info
           = {[ (DOMAIN, SleepIQSensor.unique_id alex_facade) ]}
        /\ DeviceInfo.name info = Bed.name bed_abc123_half
        /\ DeviceInfo.bed_id info = SleepIQSensor._bed_id alex_facade
        /\ DeviceInfo.side info = side_str (SleepIQSensor._side alex_facade))
  /\ (forall key,
         key <> "bed_info" -> key <> "alerts" -> key <> "sleeper" ->
         attrs' !! key = attrs !! key)
  /\ match Bed.getattr bed_abc123_half (SleepIQSensor._side alex_facade) with
     | None =>
         r = Raise (SleepIQSensor.none_has_no "alert_id")
         /\ attrs' !! "alerts" = attrs !! "alerts"
         /\ attrs' !! "sleeper" = attrs !! "sleeper"
         /\ SleepIQSensor.name self'
            = Return (SleepIQSensor.unique_id alex_facade)
     | Some s =>
         attrs' !! "alerts"
         = Some (Alerts (SideStatus.alert_id s)
                        (SideStatus.alert_detailed_message s))
         /\ match SideStatus.sleeper s with
            | None =>
                r = Raise (SleepIQSensor.none_has_no "first_name")
                /\ attrs' !! "sleeper" = attrs !! "sleeper"
                /\ SleepIQSensor.name self'
                   = Raise (SleepIQSensor.none_has_no "first_name")
            | Some sleeper =>
                r = Return tt
                /\ attrs' !! "sleeper"
                   = Some (Text (Sleeper.first_name sleeper))
                /\ SleepIQSensor.name self'
                   = Return ("Sleep Number " +:+ Bed.name bed_abc123_half
                               +:+ " " +:+ Sleeper.first_name sleeper +:+ " "
                               +:+ format_opt
                                     (SleepIQSensor._name alex_facade))
            end
     end.
Proof.
  apply (resolved_poll_rebuilds_attributes (timedelta_seconds 45)
           reply_half alex_facade polled_cache polled_world
           bed_abc123_half);
    reflexivity.
Defined.

Example empty_side_poll_raises :
  (SleepIQSensor.update (timedelta_seconds 45) reply_half
     alex_facade polled_cache polled_world).1.1.1
  = Raise (AttributeError "'NoneType' object has no attribute 'alert_id'").
Proof. reflexivity. Qed.

Example unknown_sleeper_poll_raises :
  (SleepIQSensor.update (timedelta_seconds 45) reply_half
     polled_facade polled_cache polled_world).1.1.1
  = Raise (AttributeError "'NoneType' object has no attribute 'first_name'").
Proof. reflexivity. Qed.

Example resolved_name_of_right_side :
  SleepIQSensor.name
    (SleepIQSensor.update (timedelta_seconds 45) reply_two_beds
       alex_facade polled_cache polled_world).1.1.2
  = Return "Sleep Number Loft Sam is_in_bed".
Proof. reflexivity. Qed.

(** ** Bed, side and attributes agree after any polls *)

Lemma sensor_update_consistent now reply self data w :
  consistent self ->
  consistent (SleepIQSensor.update now reply self data w).1.1.2.
Proof.
  intros Hc. unfold SleepIQSensor.update.
  destruct (SleepIQData.update now reply data w) as [[[[] | e] d'] w'].
  - simpl.
    destruct (SleepIQData.beds d' !! SleepIQSensor._bed_id self) as [b |];
      simpl; [| exact Hc].
    destruct (Bed.getattr b (SleepIQSensor._side self)) as [s |] eqn:Hs;
      simpl;
      [destruct (SideStatus.sleeper s) as [sleeper |] eqn:Hsl; simpl |];
      unfold consistent, resolved_from; simpl; rewrite ?Hs;
      (split; [reflexivity |]);
      (split; [eexists; split; [reflexivity | attr_lookup] |]).
    + intros s0 [= <-]. split; [attr_lookup |].
      intros sleeper0 H0. rewrite Hsl in H0. injection H0 as <-.
      attr_lookup.
    + intros s0 [= <-]. split; [attr_lookup |].
      intros sleeper0 H0. congruence.
    + intros s0 [=].
  - destruct e; exact Hc.
Qed.

Lemma sensor_update_keeps_own_bed now reply self data w :
  keyed (SleepIQData.beds (SleepIQData.update now reply data w).1.2) ->
  (forall b, SleepIQSensor.bed self = Some b ->
             Bed.bed_id b = SleepIQSensor._bed_id self) ->
  forall b,
    SleepIQSensor.bed (SleepIQSensor.update now reply self data w).1.1.2
      = Some b ->
    Bed.bed_id b = SleepIQSensor._bed_id self.
Proof.
  unfold SleepIQSensor.update.
  destruct (SleepIQData.update now reply data w) as [[[[] | e] d'] w'].
  - simpl. intros Hk Hown.
    destruct (SleepIQData.beds d' !! SleepIQSensor._bed_id self) as [b |]
      eqn:E; simpl; [| exact Hown].
    side_cases; intros b' [= <-]; apply Hk; exact E.
  - simpl. intros _ Hown. destruct e; exact Hown.
Qed.

(** X13: After any sequence of polls of a facade that started out
    consistent (as every newly built one does) on a cache whose beds are
    stored under their own identifiers: a facade without a bed has no side
    and no attributes; a facade with a bed has as its side whatever that
    bed has there (possibly nothing) and a "bed_info" attribute equal to
    what [device_info] returns; if it has a side, "alerts" is that
    side's, and if the side has a sleeper, "sleeper" is their first name;
    and the bed it holds carries the facade's own bed identifier. *)
Theorem polls_keep_facade_consistent calls : forall self data w,
  consistent self ->
  keyed (SleepIQData.beds data) ->
  (forall b, SleepIQSensor.bed self = Some b ->
             Bed.bed_id b = SleepIQSensor._bed_id self) ->
  let '(_, self', data', _) := run_polls calls self data w in
  consistent self'
  /\ keyed (SleepIQData.beds data')
  /\ (forall b, SleepIQSensor.bed self' = Some b ->
                Bed.bed_id b = SleepIQSensor._bed_id self).
Proof.
  induction calls as [| [now reply] rest IH]; intros self data w Hc Hk Hown;
    [simpl; auto |].
  simpl.
  pose proof (sensor_update_consistent now reply self data w Hc) as Hc1.
  pose proof (update_keyed now reply data w Hk) as Hk1.
  pose proof (sensor_update_keeps_own_bed now reply self data w Hk1 Hown)
    as Hown1.
  pose proof (sensor_update_identity now reply self data w) as (Hid & _).
  rewrite <- (sensor_update_cache now reply self data w) in Hk1.
  destruct (SleepIQSensor.update now reply self data w) as [[[r s1] d1] w1].
  simpl in *.
  assert (forall b, SleepIQSensor.bed s1 = Some b ->
                    Bed.bed_id b = SleepIQSensor._bed_id s1) as Hown1'
    by (intros b Hb; rewrite Hid; auto).
  specialize (IH s1 d1 w1 Hc1 Hk1 Hown1').
  destruct (run_polls rest s1 d1 w1) as [[[rs s2] d2] w2].
  destruct IH as (H1 & H2 & H3).
  repeat split; auto. intros b Hb. rewrite <- Hid. auto.
Qed.

Lemma polls_keep_facade_consistent_witness :
  let '(_, self', data', _) :=
    run_polls calls_30s_apart sam_facade fresh_cache [] in
  consistent self'
  /\ keyed (SleepIQData.beds data')
  /\ (forall b, SleepIQSensor.bed self' = Some b ->
                Bed.bed_id b = SleepIQSensor._bed_id sam_facade).
Proof.
  apply (polls_keep_facade_consistent calls_30s_apart sam_facade
           fresh_cache []).
  - split; reflexivity.
  - intros k b H. vm_compute in H. discriminate H.
  - intros b H. vm_compute in H. discriminate H.
Defined.

(** ** Availability *)

(** X14: When a poll returns, the facade is available exactly if the cache's
    [update] returned: unavailable after a connection error, available
    after a refresh (or a suppressed call) that still lists its bed; its
    assumed state is the opposite. *)
Theorem availability_follows_cache_outcome now reply self data w :
  (SleepIQSensor.update now reply self data w).1.1.1 = Return tt ->
  SleepIQSensor.available (SleepIQSensor.update now reply self data w).1.1.2
  = match (SleepIQData.update now reply data w).1.1 with
    | Return _ => true
    | Raise _ => false
    end
  /\ SleepIQSensor.assumed_state
       (SleepIQSensor.update now reply self data w).1.1.2
     = match (SleepIQData.update now reply data w).1.1 with
       | Return _ => false
       | Raise _ => true
       end.
Proof.
  unfold SleepIQSensor.update.
  destruct (SleepIQData.update now reply data w) as [[[[] | e] d'] w'].
  - simpl. destruct (SleepIQData.beds d' !! SleepIQSensor._bed_id self);
      simpl; side_cases; intros H;
      first [discriminate H | split; reflexivity].
  - destruct e; simpl; intros H; try discriminate H; split; reflexivity.
Qed.

Lemma availability_follows_cache_outcome_witness :
  SleepIQSensor.available
    (SleepIQSensor.update (timedelta_seconds 45) reply_malformed
       polled_facade polled_cache polled_world).1.1.2
  = match (SleepIQData.update (timedelta_seconds 45) reply_malformed
             polled_cache polled_world).1.1 with
    | Return _ => true
    | Raise _ => false
    end
  /\ SleepIQSensor.assumed_state
       (SleepIQSensor.update (timedelta_seconds 45) reply_malformed
          polled_facade polled_cache polled_world).1.1.2
     = match (SleepIQData.update (timedelta_seconds 45) reply_malformed
                polled_cache polled_world).1.1 with
       | Return _ => false
       | Raise _ => true
       end.
Proof.
  apply (availability_follows_cache_outcome (timedelta_seconds 45)
           reply_malformed polled_facade polled_cache polled_world).
  reflexivity.
Defined.

(** ** Unique identifiers *)

Lemma append_space_inj a : forall b x y,
  no_space a = true -> no_space b = true ->
  a +:+ String " " x = b +:+ String " " y ->
  a = b /\ x = y.
Proof.
  induction a as [| c a IH]; intros [| c' b] x y Ha Hb H; simpl in *.
  - injection H as ->. auto.
  - injection H as <- _. simpl in Hb. discriminate Hb.
  - injection H as -> _. simpl in Ha. discriminate Ha.
  - injection H as -> H.
    apply andb_prop in Ha as [_ Ha]. apply andb_prop in Hb as [_ Hb].
    destruct (IH b x y Ha Hb H) as [-> ->]. auto.
Qed.

(** X15: Two facades whose bed identifiers contain no space have the same
    unique identifier only if they have the same bed identifier, the same
    side and the same rendered name: facades for different beds, different
    sides or different measurement kinds never share an identifier. *)
Theorem unique_id_injective self1 self2 :
  no_space (SleepIQSensor._bed_id self1) = true ->
  no_space (SleepIQSensor._bed_id self2) = true ->
  SleepIQSensor.unique_id self1 = SleepIQSensor.unique_id self2 ->
  SleepIQSensor._bed_id self1 = SleepIQSensor._bed_id self2
  /\ SleepIQSensor._side self1 = SleepIQSensor._side self2
  /\ format_opt (SleepIQSensor._name self1)
     = format_opt (SleepIQSensor._name self2).
Proof.
  unfold SleepIQSensor.unique_id. intros H1 H2 H.
  simpl in H. injection H as H.
  apply append_space_inj in H as [Hid H]; [| assumption | assumption].
  split; [exact Hid |].
  destruct (SleepIQSensor._side self1), (SleepIQSensor._side self2);
    simpl in H; try discriminate H; injection H as H; auto.
Qed.

Lemma unique_id_injective_witness :
  SleepIQSensor._bed_id sam_facade = SleepIQSensor._bed_id polled_facade
  /\ SleepIQSensor._side sam_facade = SleepIQSensor._side polled_facade
  /\ format_opt (SleepIQSensor._name sam_facade)
     = format_opt (SleepIQSensor._name polled_facade).
Proof.
  apply (unique_id_injective sam_facade polled_facade); reflexivity.
Defined.

Example unique_id_of_spaced_bed_ids_can_collide :
  SleepIQSensor.unique_id
    (SleepIQSensor.for_kind "abc left" SideLeft "x")
  = SleepIQSensor.unique_id
      (SleepIQSensor.for_kind "abc" SideLeft "left x").
Proof. reflexivity. Qed.

(** ** Setup: all or nothing *)

Lemma loaded_app w1 w2 : loaded (w1 ++ w2) = loaded w1 ++ loaded w2.
Proof. apply filter_app. Qed.

Lemma loaded_update_body reply data w :
  loaded (SleepIQData.update_body reply data w).2 = loaded w.
Proof.
  unfold SleepIQData.update_body.
  rewrite forward_output_cases.
  destruct (outcome reply) as [e | e | l]; simpl;
    try destruct e; simpl;
    try destruct (size _ =? 0)%nat;
    rewrite !loaded_app; destruct (printed reply); simpl;
    rewrite ?app_nil_r; reflexivity.
Qed.

Lemma loaded_update now reply data w :
  loaded (SleepIQData.update now reply data w).2 = loaded w.
Proof.
  destruct (update_cases now reply data w) as [-> | ->]; [reflexivity |].
  pose proof (loaded_update_body reply data w) as H.
  destruct (SleepIQData.update_body reply data w) as [[[v | e] d1] w1];
    exact H.
Qed.

Lemma update_body_raise_kind reply data w e :
  (SleepIQData.update_body reply data w).1.1 = Raise e ->
  kind_of e <> KAttributeError /\ kind_of e <> KValueError.
Proof.
  unfold SleepIQData.update_body.
  destruct (outcome reply) as [e0 | e0 | l]; simpl;
    try destruct e0; simpl; intros [= <-]; split; discriminate.
Qed.

Lemma update_raise_kind now reply data w e :
  (SleepIQData.update now reply data w).1.1 = Raise e ->
  kind_of e <> KAttributeError /\ kind_of e <> KValueError.
Proof.
  destruct (update_cases now reply data w) as [-> | ->]; [discriminate |].
  pose proof (update_body_raise_kind reply data w e) as H.
  destruct (SleepIQData.update_body reply data w) as [[[v | e'] d1] w1];
    exact H.
Qed.

Lemma not_ready_kind e :
  kind_of e <> KAttributeError -> kind_of e <> KValueError ->
  kind_of (not_ready e) <> KConnectionError
  /\ kind_of (not_ready e) <> KUnknownUser
  /\ kind_of (not_ready e) <> KAttributeError
  /\ kind_of (not_ready e) <> KValueError.
Proof. destruct e; simpl; intros H1 H2; repeat split; congruence. Qed.

(** X16: [setup] either returns [True], having asked for the sensor platform
    and then the binary_sensor platform, or raises, having asked for no
    platform at all; it never returns [False].  What it raises is never a
    connection, unknown-user, attribute or value error: the first two
    leave it wrapped in [PlatformNotReady], the last two never leave the
    cache. *)
Theorem setup_is_all_or_nothing
    config t_init t_update r_init r_update DATA w :
  let '(r, _, w') :=
    setup config t_init t_update r_init r_update DATA w in
  (r = Return true
   /\ loaded w'
      = loaded w ++ [LoadPlatform "sensor" DOMAIN;
                     LoadPlatform "binary_sensor" DOMAIN]
   /\ exists w1, w' = w1 ++ [LoadPlatform "sensor" DOMAIN;
                             LoadPlatform "binary_sensor" DOMAIN])
  \/ (exists e,
        r = Raise e
        /\ loaded w' = loaded w
        /\ kind_of e <> KConnectionError
        /\ kind_of e <> KUnknownUser
        /\ kind_of e <> KAttributeError
        /\ kind_of e <> KValueError).
Proof.
  unfold setup, SleepIQData.init.
  set (client := mkSleepyq (CONF_USERNAME config) (CONF_PASSWORD config)).
  set (self := SleepIQData.mk client ∅ None).
  pose proof (loaded_update t_init r_init self w) as HL1.
  pose proof (update_raise_kind t_init r_init self w) as HK1.
  destruct (SleepIQData.update t_init r_init self w) as [[[[] | e1] d1] w1];
    simpl in HL1, HK1.
  - pose proof (loaded_update t_update r_update d1 w1) as HL2.
    pose proof (update_raise_kind t_update r_update d1 w1) as HK2.
    destruct (SleepIQData.update t_update r_update d1 w1)
      as [[[[] | e2] d2] w2]; simpl in HL2, HK2.
    + left. split; [reflexivity |]. unfold load_platform. split.
      * rewrite <- app_assoc, loaded_app, HL2, HL1. reflexivity.
      * exists w2. rewrite <- app_assoc. reflexivity.
    + right. exists (not_ready e2).
      destruct (HK2 e2 eq_refl) as [Ha Hv].
      split; [reflexivity |]. split; [congruence |].
      apply not_ready_kind; assumption.
  - right. exists (not_ready e1).
    destruct (HK1 e1 eq_refl) as [Ha Hv].
    split; [reflexivity |]. split; [exact HL1 |].
    apply not_ready_kind; assumption.
Qed.

(** X17: When the first fetch of a startup fails with a connection error or an
    attribute error, [setup] raises [PlatformNotReady] around a connection
    error (the client's own one in the first case), leaves [DATA] as it
    was, and has made one fetch attempt and asked for no platform. *)
Theorem connection_failure_aborts_setup
    config t_init t_update r_init r_update DATA w e :
  fetch_raises r_init e ->
  kind_of e = KConnectionError \/ kind_of e = KAttributeError ->
  exists msg,
    setup config t_init t_update r_init r_update DATA w
    = (Raise (PlatformNotReady (ConnectionError msg)), DATA,
       w ++ (vendor_fetch (outcome r_init)).2
         ++ SleepIQData.forward_output (printed r_init))
    /\ (forall m, e = ConnectionError m -> msg = m)
    /\ (forall m, e = AttributeError m -> msg = "SleepIQ API unavailable").
Proof.
  intros Hf Hk.
  set (client := mkSleepyq (CONF_USERNAME config) (CONF_PASSWORD config)).
  destruct (init_raises client t_init r_init w e Hf) as (e' & He' & Hinit).
  unfold setup. fold client. rewrite Hinit.
  destruct e; simpl in Hk; destruct Hk as [Hk | Hk]; try discriminate Hk;
    simpl in He'; injection He' as <-; simpl;
    eexists; (split; [reflexivity |]); split; intros m' [=]; auto.
Qed.

Lemma connection_failure_aborts_setup_witness :
  exists msg,
    setup example_config 0 1 reply_malformed reply_ok None []
    = (Raise (PlatformNotReady (ConnectionError msg)), None,
       [] ++ (vendor_fetch (outcome reply_malformed)).2
          ++ SleepIQData.forward_output (printed reply_malformed))
    /\ (forall m,
           AttributeError "'NoneType' object has no attribute 'json'"
           = ConnectionError m -> msg = m)
    /\ (forall m,
           AttributeError "'NoneType' object has no attribute 'json'"
           = AttributeError m -> msg = "SleepIQ API unavailable").
Proof.
  apply (connection_failure_aborts_setup example_config 0 1
           reply_malformed reply_ok None []
           (AttributeError "'NoneType' object has no attribute 'json'")).
  - reflexivity.
  - right. reflexivity.
Defined.

(** X18: [DATA] is assigned exactly when the constructor of the cache returns:
    it then holds the constructed cache as the explicit [update] left it,
    with the client built from the configured username and password, even
    if that [update] raised and [setup] failed; when the constructor
    raises, [DATA] is what it was. *)
Theorem DATA_assigned_iff_constructed
    config t_init t_update r_init r_update DATA w :
  let client := mkSleepyq (CONF_USERNAME config) (CONF_PASSWORD config) in
  let DATA' := (setup config t_init t_update r_init r_update DATA w).1.2 in
  match SleepIQData.init client t_init r_init w with
  | (Return data, w1) =>
      DATA' = Some (SleepIQData.update t_update r_update data w1).1.2
      /\ (exists data', DATA' = Some data'
                        /\ SleepIQData._client data' = client)
  | (Raise _, _) => DATA' = DATA
  end.
Proof.
  intros client DATA'. subst DATA'. unfold setup. fold client.
  pose proof (update_client t_init r_init (SleepIQData.mk client ∅ None) w)
    as Hc0.
  unfold SleepIQData.init.
  destruct (SleepIQData.update t_init r_init (SleepIQData.mk client ∅ None) w)
    as [[[[] | e1] d1] w1]; simpl in *; [| reflexivity].
  pose proof (update_client t_update r_update d1 w1) as Hc1.
  destruct (SleepIQData.update t_update r_update d1 w1)
    as [[[[] | e2] d2] w2]; simpl in *;
    (split; [reflexivity |]); eexists; (split; [reflexivity |]); congruence.
Qed.

(** ** Facades sharing the cache *)




